(** * drip-sdk: the admin client ([src/implementations/drip-admin.ts]) and
    the network configuration table ([src/config/index.ts]).

    The client is an orchestration layer over three outside collaborators:
    the RPC provider (account fetches, block hashes, broadcast), the key
    generator, and a handful of imported pure helpers (address derivation,
    conversions).  The embedding keeps the collaborators abstract and the
    control flow of the client concrete: every method is a computation in a
    state-and-exception monad whose state is the outside world together
    with the trace of the calls the client has made into it. *)

From Stdlib Require Import ZArith NArith List Ascii String Floats DecimalString.
From stdpp Require Import base strings gmap.

Local Open Scope string_scope.

(** ** Keys, addresses, numbers *)

Inductive Network := Mainnet | Devnet.

(** A [PublicKey] of web3.js wraps a 256-bit big number. *)
Record PublicKey := mkPublicKey { pk_bn : N }.

(** [PublicKey.default]: the key whose 32 bytes are all zero. *)
Definition PublicKey_default : PublicKey := mkPublicKey 0.

Record Keypair := mkKeypair {
  publicKey : PublicKey;
  secretKey : list Byte.byte;
}.

(** anchor's [Address = PublicKey | string]. *)
Inductive Address :=
| AddrKey (k : PublicKey)
| AddrStr (s : string).

(** A JS [number] is an IEEE-754 binary64 value; a [BN] is an integer of
    arbitrary size. *)
Definition number := float.
Definition BN := Z.

(** ** Parameter objects of the admin interface *)

Module InitVaultProtoConfigParams.
Record t := mk {
  granularity : number;
  tokenADripTriggerSpread : number;
  tokenBWithdrawalSpread : number;
  admin : Address;
}.
End InitVaultProtoConfigParams.

Module InitVaultProtoConfigPreview.
Record t := mk {
  granularity : number;
  tokenADripTriggerSpread : number;
  tokenBWithdrawalSpread : number;
  admin : Address;
  vaultProtoConfigKeypair : Keypair;
}.
End InitVaultProtoConfigPreview.

(** The argument type of the proto-config methods,
    [InitVaultProtoConfigParams | InitVaultProtoConfigPreview]. *)
Inductive ParamsOrPreview :=
| PlainParams (p : InitVaultProtoConfigParams.t)
| Preview (pv : InitVaultProtoConfigPreview.t).

(** Field reads that are valid on both members of the union. *)
Definition granularity_of (x : ParamsOrPreview) : number :=
  match x with
  | PlainParams p => InitVaultProtoConfigParams.granularity p
  | Preview pv => InitVaultProtoConfigPreview.granularity pv
  end.

Definition tokenADripTriggerSpread_of (x : ParamsOrPreview) : number :=
  match x with
  | PlainParams p => InitVaultProtoConfigParams.tokenADripTriggerSpread p
  | Preview pv => InitVaultProtoConfigPreview.tokenADripTriggerSpread pv
  end.

Definition tokenBWithdrawalSpread_of (x : ParamsOrPreview) : number :=
  match x with
  | PlainParams p => InitVaultProtoConfigParams.tokenBWithdrawalSpread p
  | Preview pv => InitVaultProtoConfigPreview.tokenBWithdrawalSpread pv
  end.

Definition admin_of (x : ParamsOrPreview) : Address :=
  match x with
  | PlainParams p => InitVaultProtoConfigParams.admin p
  | Preview pv => InitVaultProtoConfigPreview.admin pv
  end.

(** Modelled from the spec: [isInitVaultProtoConfigPreview], the type guard
    declared in [interfaces/drip-admin/previews], outside the two modules
    embedded here.  A preview is the parameters together with the keypair of
    the account that is not created yet, so the guard holds exactly on the
    [Preview] member of the union and narrows to it. *)
Definition isInitVaultProtoConfigPreview (x : ParamsOrPreview)
  : option InitVaultProtoConfigPreview.t :=
  match x with
  | PlainParams _ => None
  | Preview pv => Some pv
  end.

Module InitVaultParams.
Record t := mk {
  protoConfig : Address;
  tokenAMint : Address;
  tokenBMint : Address;
  tokenBFeeTreasury : Address;
  whitelistedSwaps : list Address;
  maxSlippageBps : number;
}.
End InitVaultParams.

(** The second argument of [findVaultPeriodPubkey]. *)
Module VaultPeriodSeeds.
Record t := mk {
  vault : PublicKey;
  periodId : BN;
}.
End VaultPeriodSeeds.

(** ** Instructions and transactions *)

Module InitVaultProtoConfigArgs.
Record t := mk {
  granularity : BN;
  tokenADripTriggerSpread : number;
  tokenBWithdrawalSpread : number;
  admin : PublicKey;
}.
End InitVaultProtoConfigArgs.

Module InitVaultPeriodArgs.
Record t := mk {
  periodId : BN;
}.
End InitVaultPeriodArgs.

Module InitVaultArgs.
Record t := mk {
  maxSlippageBps : number;
  whitelistedSwaps : list PublicKey;
}.
End InitVaultArgs.

(** The methods of the program's IDL that the client calls, with their
    argument objects. *)
Inductive MethodCall :=
| initVaultProtoConfig_call (args : InitVaultProtoConfigArgs.t)
| initVaultPeriod_call (args : InitVaultPeriodArgs.t)
| initVault_call (args : InitVaultArgs.t).

(** anchor's method builder: [program.methods.m(args)] starts one,
    [.accounts] and [.signers] fill it in.  The accounts object is a JS
    object used as a map from account name to address. *)
Record MethodsBuilder := mkBuilder {
  mb_programId : PublicKey;
  mb_call : MethodCall;
  mb_accounts : gmap string Address;
  mb_signers : list Keypair;
}.

(** An instruction is kept symbolic: the program it is addressed to, the
    method and its arguments, and the accounts by name; the byte encoding is
    the library's.  [ix_signers] is no field of web3.js's instruction: it is
    bookkeeping, the signers the builder had been given when the instruction
    was built, which anchor keeps on the builder only. *)
Record TransactionInstruction := mkIx {
  ix_programId : PublicKey;
  ix_call : MethodCall;
  ix_accounts : gmap string Address;
  ix_signers : list Keypair;
}.

Record Transaction := mkTransaction {
  recentBlockhash : option string;
  feePayer : option PublicKey;
  instructions : list TransactionInstruction;
}.

Definition methods (programId : PublicKey) (c : MethodCall) : MethodsBuilder :=
  mkBuilder programId c ∅ [].

Definition accounts (accs : list (string * Address)) (b : MethodsBuilder)
  : MethodsBuilder :=
  mkBuilder (mb_programId b) (mb_call b) (list_to_map accs) (mb_signers b).

Definition signers (ks : list Keypair) (b : MethodsBuilder) : MethodsBuilder :=
  mkBuilder (mb_programId b) (mb_call b) (mb_accounts b) (mb_signers b ++ ks).

(** The instruction a builder stands for. *)
Definition instruction_of (b : MethodsBuilder) : TransactionInstruction :=
  mkIx (mb_programId b) (mb_call b) (mb_accounts b) (mb_signers b).

(** [new Transaction(opts)] and [Transaction.add]. *)
Definition new_Transaction (blockhash : option string) (payer : option PublicKey)
  : Transaction :=
  mkTransaction blockhash payer [].

Definition add (ix : TransactionInstruction) (t : Transaction) : Transaction :=
  mkTransaction (recentBlockhash t) (feePayer t) (instructions t ++ [ix]).

(** Method chaining, [o.f(a)] written [o |> f a]. *)
Notation "o |> f" := (f o) (at level 45, left associativity, only parsing).

(** [TransactionWithMetadata<T>] and [BroadcastTransactionWithMetadata<T>]. *)
Record TransactionWithMetadata (T : Type) := mkTxWithMetadata {
  tx : Transaction;
  metadata : T;
}.
Arguments mkTxWithMetadata {T} _ _.
Arguments tx {T} _.
Arguments metadata {T} _.

Record BroadcastTransactionWithMetadata (T : Type) := mkBroadcast {
  id : string;
  explorer : string;
  broadcast_metadata : T;
}.
Arguments mkBroadcast {T} _ _ _.
Arguments id {T} _.
Arguments explorer {T} _.
Arguments broadcast_metadata {T} _.

Record KeypairMetadata := mkKeypairMetadata {
  meta_vaultProtoConfigKeypair : Keypair;
}.

Record VaultMetadata := mkVaultMetadata {
  meta_vaultPubkey : PublicKey;
}.

(** ** The configuration table ([src/config/index.ts]) *)

Section ConfigTable.
Variables Token VaultProtoConfig Vault : Type.

Record Config := mkConfig {
  vaultProgramId : PublicKey;
  tokens : gmap string Token;
  vaultProtoConfigs : gmap string VaultProtoConfig;
  vaults : gmap string Vault;
}.

(** The table is indexed by [Network]; the devnet entry is the imported
    module [./devnet]. *)
Definition Configs (devnet : Config) (network : Network) : Config :=
  match network with
  | Mainnet => mkConfig PublicKey_default ∅ ∅ ∅
  | Devnet => devnet
  end.

End ConfigTable.

Arguments mkConfig {Token VaultProtoConfig Vault} _ _ _ _.
Arguments vaultProgramId {Token VaultProtoConfig Vault} _.
Arguments tokens {Token VaultProtoConfig Vault} _.
Arguments vaultProtoConfigs {Token VaultProtoConfig Vault} _.
Arguments vaults {Token VaultProtoConfig Vault} _.
Arguments Configs {Token VaultProtoConfig Vault} _ _.

(** ** Errors, outcomes and the outside world *)

Inductive Error :=
| VaultAlreadyExistsError (vault : PublicKey)
| RuntimeError (message : string).

(** What awaiting a promise gives: the value it resolves to, or the error
    it rejects with. *)
Inductive Outcome (A : Type) :=
| Return (a : A)
| Throw (e : Error).
Arguments Return {A} _.
Arguments Throw {A} _.

(** A decoded vault account.  Its layout is the IDL's; the client only
    tests whether the account is there. *)
Record VaultAccount := mkVaultAccount { account_data : list Byte.byte }.

(** The calls the client makes into the outside world, as they are logged. *)
Inductive Event :=
| EvFetchVault (address : PublicKey)
| EvGetLatestBlockhash
| EvGenerateKeypair (k : Keypair)
| EvSendAndConfirm (t : Transaction) (extra_signers : list Keypair).

(** The provider, over an abstract state [World] of the cluster.  The two
    reads observe the world; a broadcast may change it, also when it ends
    in an error. *)
Record AnchorProvider (World : Type) := mkProvider {
  wallet_publicKey : PublicKey;
  rpc_fetchNullable : World -> PublicKey -> Outcome (option VaultAccount);
  rpc_getLatestBlockhash : World -> Outcome string;
  rpc_sendAndConfirm :
    World -> Transaction -> list Keypair -> Outcome string * World;
}.
Arguments mkProvider {World} _ _ _ _.
Arguments wallet_publicKey {World} _.
Arguments rpc_fetchNullable {World} _ _ _.
Arguments rpc_getLatestBlockhash {World} _ _.
Arguments rpc_sendAndConfirm {World} _ _ _ _.

(** What the two modules import from elsewhere, kept abstract: library
    functions and constants ([Number.prototype.toString], the [BN]
    constructor, [PublicKey.findProgramAddressSync], the spl-token and
    web3.js program ids), [toPubkey] and [makeExplorerUrl] of [../utils],
    [ZERO] of [../constants], the seeds the helpers of [../helpers] hash,
    the key generator (it draws on the world's entropy), and the devnet
    configuration with the entry types of [./types].

    Three of them can throw.  The [BN] constructor throws on a string that
    is no numeral.  [toPubkey] throws on a string that is no key:
    [toPubkey_error a] is the error of [toPubkey(a)] when it throws, and
    [toPubkey a] its value when it does not.  anchor rejects a builder whose
    accounts or arguments it cannot encode: [anchor_rejects b] is the error
    of [b.instruction()] and [b.transaction()] when they reject. *)
Class Imports (World : Type) := {
  Number_toString : number -> string;
  BN_new : string -> Outcome BN;
  ZERO : BN;
  toPubkey : Address -> PublicKey;
  toPubkey_error : Address -> option Error;
  anchor_rejects : MethodsBuilder -> option Error;
  findProgramAddressSync : list (list Byte.byte) -> PublicKey -> PublicKey;
  vaultSeeds : InitVaultParams.t -> list (list Byte.byte);
  vaultPeriodSeeds : VaultPeriodSeeds.t -> list (list Byte.byte);
  getAssociatedTokenAddress :
    PublicKey -> PublicKey -> bool -> PublicKey -> PublicKey -> PublicKey;
  makeExplorerUrl : string -> Network -> string;
  SystemProgram_programId : PublicKey;
  SYSVAR_RENT_PUBKEY : PublicKey;
  TOKEN_PROGRAM_ID : PublicKey;
  ASSOCIATED_TOKEN_PROGRAM_ID : PublicKey;
  Keypair_generate : World -> Keypair * World;
  ConfigToken : Type;
  ConfigVaultProtoConfig : Type;
  ConfigVault : Type;
  devnet : Config ConfigToken ConfigVaultProtoConfig ConfigVault;
}.

(** ** The monad of the client's methods *)

Section Client.
Context {World : Type} `{Imports World}.

(** Modelled from the spec: [findVaultPubkey] is defined in [../helpers],
    outside the two modules embedded here.  The spec describes it as the
    deterministic derivation of a program-owned account address from seeds:
    the address is the program address found for the seeds of the parameters
    under the given program id. *)
Definition findVaultPubkey (vaultProgramId : PublicKey)
  (params : InitVaultParams.t) : PublicKey :=
  findProgramAddressSync (vaultSeeds params) vaultProgramId.

(** Modelled from the spec: [findVaultPeriodPubkey], defined in
    [../helpers] as well; it is the same derivation, from the seeds of a
    vault and a period id. *)
Definition findVaultPeriodPubkey (vaultProgramId : PublicKey)
  (seeds : VaultPeriodSeeds.t) : PublicKey :=
  findProgramAddressSync (vaultPeriodSeeds seeds) vaultProgramId.

Record State := mkState {
  world : World;
  trace : list Event;
}.

Definition Async (A : Type) : Type := State -> Outcome A * State.

Definition ret {A} (a : A) : Async A := fun s => (Return a, s).

Definition throw {A} (e : Error) : Async A := fun s => (Throw e, s).

Definition bind {A B} (m : Async A) (k : A -> Async B) : Async B :=
  fun s =>
    match m s with
    | (Return a, s') => k a s'
    | (Throw e, s') => (Throw e, s')
    end.

Notation "x <- m ;; k" := (bind m (fun x => k))
  (at level 90, m at level 89, right associativity).

Definition logged (e : Event) (s : State) : State :=
  mkState (world s) (trace s ++ [e]).

(** Awaiting a promise that is settled without a call into the world, or
    evaluating an expression that may throw. *)
Definition await {A} (o : Outcome A) : Async A := fun s => (o, s).

(** The call [toPubkey(a)]. *)
Definition try_toPubkey (a : Address) : Outcome PublicKey :=
  match toPubkey_error a with
  | Some e => Throw e
  | None => Return (toPubkey a)
  end.

(** [addresses.map(toPubkey)]: left to right, up to the first that throws. *)
Fixpoint map_toPubkey (addresses : list Address) : Outcome (list PublicKey) :=
  match addresses with
  | [] => Return []
  | a :: rest =>
      match try_toPubkey a with
      | Throw e => Throw e
      | Return k =>
          match map_toPubkey rest with
          | Throw e => Throw e
          | Return ks => Return (k :: ks)
          end
      end
  end.

(** [builder.instruction()]: the instruction of the builder, unless anchor
    rejects it. *)
Definition instruction (b : MethodsBuilder) : Outcome TransactionInstruction :=
  match anchor_rejects b with
  | Some e => Throw e
  | None => Return (instruction_of b)
  end.

(** [builder.transaction()]: a transaction holding the one instruction.
    The keypairs given to [.signers] are no part of it; a broadcast is
    handed its signers apart from the transaction. *)
Definition transaction (b : MethodsBuilder) : Outcome Transaction :=
  match instruction b with
  | Throw e => Throw e
  | Return ix => Return (new_Transaction None None |> add ix)
  end.

(** [Keypair.generate()] *)
Definition generate : Async Keypair :=
  fun s =>
    let (k, w) := Keypair_generate (world s) in
    (Return k, mkState w (trace s ++ [EvGenerateKeypair k])).

(** [program.account.vault.fetchNullable(address)] *)
Definition fetchNullable (p : AnchorProvider World) (address : PublicKey)
  : Async (option VaultAccount) :=
  fun s => (rpc_fetchNullable p (world s) address, logged (EvFetchVault address) s).

(** [provider.connection.getLatestBlockhash()], its [blockhash] field. *)
Definition getLatestBlockhash (p : AnchorProvider World) : Async string :=
  fun s => (rpc_getLatestBlockhash p (world s), logged EvGetLatestBlockhash s).

(** [provider.sendAndConfirm(tx, signers)]; a call without [signers] passes
    the empty list. *)
Definition sendAndConfirm (p : AnchorProvider World) (t : Transaction)
  (extra : list Keypair) : Async string :=
  fun s =>
    let (r, w) := rpc_sendAndConfirm p (world s) t extra in
    (r, mkState w (trace s ++ [EvSendAndConfirm t extra])).

(** ** [DripAdminImpl] *)

Record Program := mkProgram {
  programId : PublicKey;
  program_provider : AnchorProvider World;
}.

Record DripAdminImpl := mkDripAdminImpl {
  provider : AnchorProvider World;
  network : Network;
  vaultProgram : Program;
}.

(** The constructor. *)
Definition new_DripAdminImpl (provider : AnchorProvider World) (network : Network)
  : DripAdminImpl :=
  let config := Configs devnet network in
  mkDripAdminImpl provider network (mkProgram (vaultProgramId config) provider).

Definition getInitVaultProtoConfigPreview (self : DripAdminImpl)
  (params : InitVaultProtoConfigParams.t) : Async InitVaultProtoConfigPreview.t :=
  vaultProtoConfigKeypair <- generate ;;
  ret (InitVaultProtoConfigPreview.mk
         (InitVaultProtoConfigParams.granularity params)
         (InitVaultProtoConfigParams.tokenADripTriggerSpread params)
         (InitVaultProtoConfigParams.tokenBWithdrawalSpread params)
         (InitVaultProtoConfigParams.admin params)
         vaultProtoConfigKeypair).

Definition getInitVaultProtoConfigTx (self : DripAdminImpl)
  (params : ParamsOrPreview) : Async (TransactionWithMetadata KeypairMetadata) :=
  let granularity := granularity_of params in
  let tokenADripTriggerSpread := tokenADripTriggerSpread_of params in
  let tokenBWithdrawalSpread := tokenBWithdrawalSpread_of params in
  vaultProtoConfigKeypair <-
    match isInitVaultProtoConfigPreview params with
    | Some preview => ret (InitVaultProtoConfigPreview.vaultProtoConfigKeypair preview)
    | None => generate
    end ;;
  granularityBN <- await (BN_new (Number_toString granularity)) ;;
  admin <- await (try_toPubkey (admin_of params)) ;;
  tx <- await
    (methods (programId (vaultProgram self))
       (initVaultProtoConfig_call
          (InitVaultProtoConfigArgs.mk
             granularityBN
             tokenADripTriggerSpread
             tokenBWithdrawalSpread
             admin))
     |> accounts
          [("vaultProtoConfig", AddrKey (publicKey vaultProtoConfigKeypair));
           ("creator", AddrKey (wallet_publicKey (provider self)));
           ("systemProgram", AddrKey SystemProgram_programId)]
     |> signers [vaultProtoConfigKeypair]
     |> transaction) ;;
  ret (mkTxWithMetadata tx (mkKeypairMetadata vaultProtoConfigKeypair)).

Definition initVaultProtoConfig (self : DripAdminImpl) (params : ParamsOrPreview)
  : Async (BroadcastTransactionWithMetadata KeypairMetadata) :=
  r <- getInitVaultProtoConfigTx self params ;;
  txHash <- sendAndConfirm (provider self) (tx r)
              [meta_vaultProtoConfigKeypair (metadata r)] ;;
  ret (mkBroadcast txHash (makeExplorerUrl txHash (network self)) (metadata r)).

(** The [initVaultPeriod] instruction is started first and awaited last:
    its promise is settled on its own, and a rejection of it surfaces after
    those of the steps in between. *)
Definition getInitVaultTx (self : DripAdminImpl) (params : InitVaultParams.t)
  : Async (TransactionWithMetadata VaultMetadata) :=
  let vaultPubkey := findVaultPubkey (programId (vaultProgram self)) params in
  vaultAccount <-
    fetchNullable (program_provider (vaultProgram self)) vaultPubkey ;;
  match vaultAccount with
  | Some _ => throw (VaultAlreadyExistsError vaultPubkey)
  | None =>
    let vaultGenesisPeriodId := ZERO in
    let vaultGenesisPeriodPubkey :=
      findVaultPeriodPubkey (programId (vaultProgram self))
        (VaultPeriodSeeds.mk vaultPubkey vaultGenesisPeriodId) in
    let initVaultPeriodIxPromise :=
      methods (programId (vaultProgram self))
        (initVaultPeriod_call (InitVaultPeriodArgs.mk vaultGenesisPeriodId))
      |> accounts
           [("vaultPeriod", AddrKey vaultGenesisPeriodPubkey);
            ("vault", AddrKey vaultPubkey);
            ("tokenAMint", InitVaultParams.tokenAMint params);
            ("tokenBMint", InitVaultParams.tokenBMint params);
            ("vaultProtoConfig", InitVaultParams.protoConfig params);
            ("creator", AddrKey (wallet_publicKey (provider self)));
            ("systemProgram", AddrKey SystemProgram_programId)]
      |> instruction in
    tokenAMint <- await (try_toPubkey (InitVaultParams.tokenAMint params)) ;;
    tokenBMint <- await (try_toPubkey (InitVaultParams.tokenBMint params)) ;;
    let tokenAAccount :=
      getAssociatedTokenAddress tokenAMint
        vaultPubkey true TOKEN_PROGRAM_ID ASSOCIATED_TOKEN_PROGRAM_ID in
    let tokenBAccount :=
      getAssociatedTokenAddress tokenBMint
        vaultPubkey true TOKEN_PROGRAM_ID ASSOCIATED_TOKEN_PROGRAM_ID in
    whitelistedSwaps <-
      await (map_toPubkey (InitVaultParams.whitelistedSwaps params)) ;;
    initVaultIx <- await
      (methods (programId (vaultProgram self))
         (initVault_call
            (InitVaultArgs.mk
               (InitVaultParams.maxSlippageBps params)
               whitelistedSwaps))
       |> accounts
           [("vault", AddrKey vaultPubkey);
            ("vaultProtoConfig", InitVaultParams.protoConfig params);
            ("tokenAAccount", AddrKey tokenAAccount);
            ("tokenBAccount", AddrKey tokenBAccount);
            ("treasuryTokenBAccount", InitVaultParams.tokenBFeeTreasury params);
            ("tokenAMint", InitVaultParams.tokenAMint params);
            ("tokenBMint", InitVaultParams.tokenBMint params);
            ("creator", AddrKey (wallet_publicKey (provider self)));
            ("tokenProgram", AddrKey TOKEN_PROGRAM_ID);
            ("associatedTokenProgram", AddrKey ASSOCIATED_TOKEN_PROGRAM_ID);
            ("systemProgram", AddrKey SystemProgram_programId);
            ("rent", AddrKey SYSVAR_RENT_PUBKEY)]
       |> instruction) ;;
    initVaultPeriodIx <- await initVaultPeriodIxPromise ;;
    blockhash <- getLatestBlockhash (provider self) ;;
    let tx :=
      new_Transaction (Some blockhash) (Some (wallet_publicKey (provider self)))
      |> add initVaultIx
      |> add initVaultPeriodIx in
    ret (mkTxWithMetadata tx (mkVaultMetadata vaultPubkey))
  end.

Definition initVault (self : DripAdminImpl) (params : InitVaultParams.t)
  : Async (BroadcastTransactionWithMetadata VaultMetadata) :=
  r <- getInitVaultTx self params ;;
  txHash <- sendAndConfirm (provider self) (tx r) [] ;;
  ret (mkBroadcast txHash (makeExplorerUrl txHash (network self)) (metadata r)).

End Client.

Arguments findVaultPubkey : simpl never.
Arguments findVaultPeriodPubkey : simpl never.
Arguments State : clear implicits.
Arguments Async : clear implicits.
Arguments DripAdminImpl : clear implicits.
Arguments Program : clear implicits.

Notation "x <- m ;; k" := (bind m (fun x => k))
  (at level 90, m at level 89, right associativity).

(** ** Observations on a run *)

(** The broadcasts among logged calls, as a decidable filter. *)
Definition is_send (e : Event) : bool :=
  match e with
  | EvSendAndConfirm _ _ => true
  | _ => false
  end.

Definition broadcasts (evs : list Event) : list Event := filter is_send evs.

(** The [vaultPeriod] accounts named in a transaction, in instruction order. *)
Definition vaultPeriod_accounts (t : Transaction) : list Address :=
  omap (fun ix => ix_accounts ix !! "vaultPeriod") (instructions t).

(** The preview without its added field. *)
Definition params_of_preview (pv : InitVaultProtoConfigPreview.t)
  : InitVaultProtoConfigParams.t :=
  InitVaultProtoConfigParams.mk
    (InitVaultProtoConfigPreview.granularity pv)
    (InitVaultProtoConfigPreview.tokenADripTriggerSpread pv)
    (InitVaultProtoConfigPreview.tokenBWithdrawalSpread pv)
    (InitVaultProtoConfigPreview.admin pv).

(** The builders the methods hand to anchor once their conversions have
    returned, and the first error their building steps meet, in the order
    the methods meet them.  They are used to say when a build goes through. *)
Section Builders.
Context {World : Type} `{Imports World}.
Variable self : DripAdminImpl World.

Definition initVaultProtoConfig_builder (params : ParamsOrPreview)
  (keypair : Keypair) (granularity : BN) : MethodsBuilder :=
  methods (programId (vaultProgram self))
    (initVaultProtoConfig_call
       (InitVaultProtoConfigArgs.mk
          granularity
          (tokenADripTriggerSpread_of params)
          (tokenBWithdrawalSpread_of params)
          (toPubkey (admin_of params))))
  |> accounts
       [("vaultProtoConfig", AddrKey (publicKey keypair));
        ("creator", AddrKey (wallet_publicKey (provider self)));
        ("systemProgram", AddrKey SystemProgram_programId)]
  |> signers [keypair].

Definition initVaultPeriod_builder (params : InitVaultParams.t) : MethodsBuilder :=
  let vaultPubkey := findVaultPubkey (programId (vaultProgram self)) params in
  methods (programId (vaultProgram self))
    (initVaultPeriod_call (InitVaultPeriodArgs.mk ZERO))
  |> accounts
       [("vaultPeriod",
         AddrKey
           (findVaultPeriodPubkey (programId (vaultProgram self))
              (VaultPeriodSeeds.mk vaultPubkey ZERO)));
        ("vault", AddrKey vaultPubkey);
        ("tokenAMint", InitVaultParams.tokenAMint params);
        ("tokenBMint", InitVaultParams.tokenBMint params);
        ("vaultProtoConfig", InitVaultParams.protoConfig params);
        ("creator", AddrKey (wallet_publicKey (provider self)));
        ("systemProgram", AddrKey SystemProgram_programId)].

Definition initVault_builder (params : InitVaultParams.t) : MethodsBuilder :=
  let vaultPubkey := findVaultPubkey (programId (vaultProgram self)) params in
  methods (programId (vaultProgram self))
    (initVault_call
       (InitVaultArgs.mk
          (InitVaultParams.maxSlippageBps params)
          (map toPubkey (InitVaultParams.whitelistedSwaps params))))
  |> accounts
       [("vault", AddrKey vaultPubkey);
        ("vaultProtoConfig", InitVaultParams.protoConfig params);
        ("tokenAAccount",
         AddrKey
           (getAssociatedTokenAddress
              (toPubkey (InitVaultParams.tokenAMint params))
              vaultPubkey true TOKEN_PROGRAM_ID ASSOCIATED_TOKEN_PROGRAM_ID));
        ("tokenBAccount",
         AddrKey
           (getAssociatedTokenAddress
              (toPubkey (InitVaultParams.tokenBMint params))
              vaultPubkey true TOKEN_PROGRAM_ID ASSOCIATED_TOKEN_PROGRAM_ID));
        ("treasuryTokenBAccount", InitVaultParams.tokenBFeeTreasury params);
        ("tokenAMint", InitVaultParams.tokenAMint params);
        ("tokenBMint", InitVaultParams.tokenBMint params);
        ("creator", AddrKey (wallet_publicKey (provider self)));
        ("tokenProgram", AddrKey TOKEN_PROGRAM_ID);
        ("associatedTokenProgram", AddrKey ASSOCIATED_TOKEN_PROGRAM_ID);
        ("systemProgram", AddrKey SystemProgram_programId);
        ("rent", AddrKey SYSVAR_RENT_PUBKEY)].

(** [getInitVaultTx] between the fetch and the block-hash request: the two
    mints, the swaps, then anchor on the [initVault] builder, then the
    awaited [initVaultPeriod] promise. *)
Definition initVault_build_error (params : InitVaultParams.t) : option Error :=
  match toPubkey_error (InitVaultParams.tokenAMint params) with
  | Some e => Some e
  | None =>
  match toPubkey_error (InitVaultParams.tokenBMint params) with
  | Some e => Some e
  | None =>
  match map_toPubkey (InitVaultParams.whitelistedSwaps params) with
  | Throw e => Some e
  | Return _ =>
  match anchor_rejects (initVault_builder params) with
  | Some e => Some e
  | None => anchor_rejects (initVaultPeriod_builder params)
  end end end end.

(** [getInitVaultProtoConfigTx] once the keypair is settled: the [BN]
    constructor, [toPubkey] on the admin, then anchor on the builder. *)
Definition initVaultProtoConfig_build (params : ParamsOrPreview)
  (keypair : Keypair) : Outcome Transaction :=
  match BN_new (Number_toString (granularity_of params)) with
  | Throw e => Throw e
  | Return granularity =>
  match toPubkey_error (admin_of params) with
  | Some e => Throw e
  | None =>
  match anchor_rejects (initVaultProtoConfig_builder params keypair granularity) with
  | Some e => Throw e
  | None =>
      Return
        (mkTransaction None None
           [instruction_of
              (initVaultProtoConfig_builder params keypair granularity)])
  end end end.

(** The keypair [getInitVaultProtoConfigTx] settles on, and the state it
    is settled in. *)
Definition settled_keypair (params : ParamsOrPreview) (s : State World)
  : Keypair * State World :=
  match params with
  | Preview preview =>
      (InitVaultProtoConfigPreview.vaultProtoConfigKeypair preview, s)
  | PlainParams _ =>
      let (k, w) := Keypair_generate (world s) in
      (k, mkState w (trace s ++ [EvGenerateKeypair k])%list)
  end.

End Builders.

(** One call of [sendAndConfirm] whose answer becomes the result: what the
    two broadcasting methods are expected to do with a built transaction. *)
Definition broadcast_step {World} `{Imports World} {T}
  (self : DripAdminImpl World) (r : TransactionWithMetadata T)
  (extra : list Keypair) (s1 : State World)
  : Outcome (BroadcastTransactionWithMetadata T) * State World :=
  let (answer, w) := rpc_sendAndConfirm (provider self) (world s1) (tx r) extra in
  (match answer with
   | Return txHash =>
       Return (mkBroadcast txHash (makeExplorerUrl txHash (network self))
                 (metadata r))
   | Throw e => Throw e
   end,
   mkState w (trace s1 ++ [EvSendAndConfirm (tx r) extra])%list).

(** ** A small concrete world

    A test double for the collaborators, used to run the client: a cluster
    that knows which vault addresses are taken, can fail account reads and
    block-hash requests and can refuse broadcasts, a key generator that
    counts, and stand-ins for the library functions that print, parse and
    validate. *)

Module TestCluster.

Record Cluster := mkCluster {
  taken : list N;
  entropy : N;
  reads_up : bool;
  hashes_up : bool;
  accepts : bool;
  landed : list Transaction;
}.

Definition wallet : PublicKey := mkPublicKey 7.

Definition provider : AnchorProvider Cluster :=
  mkProvider wallet
    (fun w address =>
       if reads_up w then
         Return (if existsb (N.eqb (pk_bn address)) (taken w)
                 then Some (mkVaultAccount []) else None)
       else Throw (RuntimeError "failed to get info about account"))
    (fun w =>
       if hashes_up w then Return "EkSnNWid2cvwEVnVx9aBqawnmiCNiDgp3gUdkDPTKN1N"
       else Throw (RuntimeError "failed to get recent blockhash"))
    (fun w t extra =>
       if accepts w then
         (Return "5VERv8NMvzbJMEkV8xnrLkEaWRtSz9CosKDYjCJjBRnb",
          mkCluster (taken w) (entropy w) (reads_up w) (hashes_up w) (accepts w)
            (landed w ++ [t]))
       else (Throw (RuntimeError "Transaction simulation failed"), w)).

Definition key_of (a : Address) : PublicKey :=
  match a with
  | AddrKey k => k
  | AddrStr s => mkPublicKey (N.of_nat (String.length s))
  end.

(** A string stands for a key when it has the length of a base-58 key. *)
Definition address_ok (a : Address) : bool :=
  match a with
  | AddrKey _ => true
  | AddrStr s => (32 <=? String.length s)%nat && (String.length s <=? 44)%nat
  end.

(** Printing a number.  [decimal] prints an integer; [fraction r k] prints
    the digits of [r / 2^k] after the point; [exponential z] prints a large
    integer as JS does from 1e21 on.  The digits are the exact ones; JS
    prints the shortest that read back as the same number, which are these
    for integers below 1e21 and for fractions such as 1.5. *)
Definition decimal (z : Z) : string := NilZero.string_of_int (Z.to_int z).

Fixpoint zeros (n : nat) : string :=
  match n with
  | O => ""
  | S n' => String "0"%char (zeros n')
  end.

Fixpoint strip_zeros (s : string) : string :=
  match s with
  | "" => ""
  | String c rest =>
      let rest' := strip_zeros rest in
      if String.eqb rest' "" && Ascii.eqb c "0"%char then "" else String c rest'
  end.

Definition fraction (r k : Z) : string :=
  let digits := decimal (r * 5 ^ k) in
  strip_zeros (zeros (Z.to_nat k - String.length digits) ++ digits).

Definition exponential (z : Z) : string :=
  let digits := decimal z in
  match strip_zeros digits with
  | "" => "0"
  | String c "" => String c ("e+" ++ decimal (Z.of_nat (String.length digits) - 1))
  | String c rest =>
      String c ("." ++ rest ++ "e+"
                ++ decimal (Z.of_nat (String.length digits) - 1))
  end.

Definition print_number (x : number) : string :=
  match Prim2SF x with
  | S754_nan => "NaN"
  | S754_infinity negative => if negative then "-Infinity" else "Infinity"
  | S754_zero _ => "0"
  | S754_finite negative m e =>
      (if negative then "-" else "")
      ++ (if (0 <=? e)%Z then
            let z := (Z.pos m * 2 ^ e)%Z in
            if (z <? 10 ^ 21)%Z then decimal z else exponential z
          else
            let q := (Z.pos m / 2 ^ (- e))%Z in
            let r := (Z.pos m mod 2 ^ (- e))%Z in
            if (r =? 0)%Z then decimal q
            else decimal q ++ "." ++ fraction r (- e))
  end.

(** Parsing a numeral, as the [BN] constructor does in base 10. *)
Definition parse_BN (s : string) : Outcome BN :=
  match NilZero.int_of_string s with
  | Some i => Return (Z.of_int i)
  | None => Throw (RuntimeError "Invalid character")
  end.

(** The integer a number is, if it is one. *)
Definition integer_of (x : number) : option Z :=
  match Prim2SF x with
  | S754_zero _ => Some 0%Z
  | S754_finite negative m e =>
      let sign := if negative then Z.opp else (fun z => z) in
      if (0 <=? e)%Z then Some (sign (Z.pos m * 2 ^ e)%Z)
      else if (Z.pos m mod 2 ^ (- e) =? 0)%Z
           then Some (sign (Z.pos m / 2 ^ (- e))%Z)
           else None
  | _ => None
  end.

Definition is_u16 (x : number) : bool :=
  match integer_of x with
  | Some z => (0 <=? z)%Z && (z <? 2 ^ 16)%Z
  | None => false
  end.

Definition is_u64 (z : Z) : bool := (0 <=? z)%Z && (z <? 2 ^ 64)%Z.

(** What anchor checks of a builder: every account is an address, and the
    arguments fit the integer types of the method. *)
Definition check_builder (b : MethodsBuilder) : option Error :=
  if negb (forallb address_ok (map snd (map_to_list (mb_accounts b))))
  then Some (RuntimeError "Wrong input type for account")
  else
    let fits :=
      match mb_call b with
      | initVaultProtoConfig_call args =>
          is_u64 (InitVaultProtoConfigArgs.granularity args)
          && is_u16 (InitVaultProtoConfigArgs.tokenADripTriggerSpread args)
          && is_u16 (InitVaultProtoConfigArgs.tokenBWithdrawalSpread args)
      | initVaultPeriod_call args => is_u64 (InitVaultPeriodArgs.periodId args)
      | initVault_call args => is_u16 (InitVaultArgs.maxSlippageBps args)
      end in
    if fits then None
    else Some (RuntimeError "The value is out of range").

(** A key as a seed: its low byte. *)
Definition seed_of (k : PublicKey) : list Byte.byte :=
  match Byte.of_N (pk_bn k mod 256) with
  | Some b => [b]
  | None => []
  end.

Definition seed_sum (seeds : list (list Byte.byte)) : N :=
  fold_right N.add 0%N (map Byte.to_N (concat seeds)).

#[global] Instance imports : Imports Cluster := {|
  Number_toString := print_number;
  BN_new := parse_BN;
  ZERO := 0%Z;
  toPubkey := key_of;
  toPubkey_error := fun a =>
    if address_ok a then None else Some (RuntimeError "Invalid public key input");
  anchor_rejects := check_builder;
  findProgramAddressSync := fun seeds pid =>
    mkPublicKey (1000 + pk_bn pid + seed_sum seeds);
  vaultSeeds := fun params =>
    [seed_of (key_of (InitVaultParams.tokenAMint params));
     seed_of (key_of (InitVaultParams.tokenBMint params));
     seed_of (key_of (InitVaultParams.protoConfig params))];
  vaultPeriodSeeds := fun seeds =>
    [seed_of (VaultPeriodSeeds.vault seeds);
     seed_of (mkPublicKey (Z.to_N (VaultPeriodSeeds.periodId seeds)))];
  getAssociatedTokenAddress := fun mint owner _ _ _ =>
    mkPublicKey (3000 + pk_bn mint + pk_bn owner);
  makeExplorerUrl := fun h n =>
    "https://explorer.solana.com/tx/" ++ h
    ++ match n with Mainnet => "" | Devnet => "?cluster=devnet" end;
  SystemProgram_programId := mkPublicKey 0;
  SYSVAR_RENT_PUBKEY := mkPublicKey 11;
  TOKEN_PROGRAM_ID := mkPublicKey 12;
  ASSOCIATED_TOKEN_PROGRAM_ID := mkPublicKey 13;
  Keypair_generate := fun w =>
    (mkKeypair (mkPublicKey (500 + entropy w)) [],
     mkCluster (taken w) (N.succ (entropy w)) (reads_up w) (hashes_up w)
       (accepts w) (landed w));
  ConfigToken := unit;
  ConfigVaultProtoConfig := unit;
  ConfigVault := unit;
  devnet := mkConfig (mkPublicKey 42) ∅ ∅ ∅;
|}.

Definition admin : DripAdminImpl Cluster := new_DripAdminImpl provider Devnet.

Definition protoParams : InitVaultProtoConfigParams.t :=
  InitVaultProtoConfigParams.mk 60%float 50%float 25%float (AddrKey wallet).

Definition previewed : InitVaultProtoConfigPreview.t :=
  InitVaultProtoConfigPreview.mk 60%float 50%float 25%float (AddrKey wallet)
    (mkKeypair (mkPublicKey 77) []).

(** A preview with an hourly granularity and an admin given as a string. *)
Definition hourly : InitVaultProtoConfigPreview.t :=
  InitVaultProtoConfigPreview.mk 3600%float 30%float 10%float
    (AddrStr "Gv1CFNw5dCnjNYrPaNPgLVyiU3LCSpbrnzsNGDcEmvq6")
    (mkKeypair (mkPublicKey 78) []).

Definition vaultParams : InitVaultParams.t :=
  InitVaultParams.mk (AddrKey (mkPublicKey 1)) (AddrKey (mkPublicKey 2))
    (AddrKey (mkPublicKey 3)) (AddrKey (mkPublicKey 4))
    [AddrKey (mkPublicKey 5);
     AddrStr "So11111111111111111111111111111111111111112"] 100%float.

(** Parameters the libraries refuse: a granularity that is no integer, a
    mint and a treasury that are no addresses, a slippage beyond 16 bits. *)
Definition fractionalParams : InitVaultProtoConfigParams.t :=
  InitVaultProtoConfigParams.mk 1.5%float 50%float 25%float (AddrKey wallet).

Definition malformedMintParams : InitVaultParams.t :=
  InitVaultParams.mk (AddrKey (mkPublicKey 1)) (AddrStr "orca")
    (AddrKey (mkPublicKey 3)) (AddrKey (mkPublicKey 4)) [] 100%float.

Definition malformedTreasuryParams : InitVaultParams.t :=
  InitVaultParams.mk (AddrKey (mkPublicKey 1)) (AddrKey (mkPublicKey 2))
    (AddrKey (mkPublicKey 3)) (AddrStr "orca") [] 100%float.

Definition wideSlippageParams : InitVaultParams.t :=
  InitVaultParams.mk (AddrKey (mkPublicKey 1)) (AddrKey (mkPublicKey 2))
    (AddrKey (mkPublicKey 3)) (AddrKey (mkPublicKey 4)) [] 65536%float.

(** The address [findVaultPubkey] derives for [vaultParams] on devnet:
    1000 + 42 + (2 + 3 + 1). *)
Definition vaultAddress : N := 1048.

Definition cluster (taken : list N) (reads_up hashes_up accepts : bool)
  : State Cluster :=
  mkState (mkCluster taken 0 reads_up hashes_up accepts []) [].

(** A cluster on which the vault of [vaultParams] is already there, a fresh
    one, one whose account reads fail, one that gives no block hash and one
    that refuses broadcasts. *)
Definition taken_cluster := cluster [vaultAddress] true true true.
Definition fresh_cluster := cluster [] true true true.
Definition offline_cluster := cluster [] false true true.
Definition hashless_cluster := cluster [] true false true.
Definition refusing_cluster := cluster [] true true false.

(** A second provider: another wallet, another block hash, and a cluster
    view in which no vault address is ever taken. *)
Definition other_provider : AnchorProvider Cluster :=
  mkProvider (mkPublicKey 8)
    (fun _ _ => Return None)
    (fun _ => Return "4uQeVj5tqViQh7yWWGStvkEG1Zmhx6uasJtWCJziofM")
    (fun w _ _ => (Throw (RuntimeError "Blockhash not found"), w)).

End TestCluster.

(** ** A cluster on which broadcasts land

    The same test double, with a provider that executes what it is sent:
    each [initVault] instruction of a broadcast transaction makes the
    address of its [vault] account taken. *)

Module LandingCluster.
Import TestCluster.

Definition created_vaults (t : Transaction) : list N :=
  omap
    (fun ix =>
       match ix_call ix, ix_accounts ix !! "vault" with
       | initVault_call _, Some (AddrKey k) => Some (pk_bn k)
       | _, _ => None
       end)
    (instructions t).

Definition provider : AnchorProvider Cluster :=
  mkProvider wallet
    (rpc_fetchNullable TestCluster.provider)
    (rpc_getLatestBlockhash TestCluster.provider)
    (fun w t extra =>
       if accepts w then
         (Return "3AsdoALgZFuq2oUVWrDYhg2pNeaLJKPLf8hU2mQ6U8qJ",
          mkCluster (taken w ++ created_vaults t) (entropy w) (reads_up w)
            (hashes_up w) (accepts w) (landed w ++ [t]))
       else (Throw (RuntimeError "Transaction simulation failed"), w)).

Definition admin : DripAdminImpl Cluster := new_DripAdminImpl provider Devnet.

End LandingCluster.

(** ** Proof steps *)

(** Closes a goal [call s = (outcome, s')] for one of the primitive calls,
    from the equation [E] that says how the world answers it. *)
Ltac answer E :=
  unfold fetchNullable, getLatestBlockhash, sendAndConfirm;
  cbn in E |- *; rewrite E; reflexivity.

(** Runs the client on the test double.  The account objects are left as
    the client wrote them; what the libraries make of them is decided by
    the conversion that closes the goal. *)
Ltac run :=
  lazy -[list_to_map map_insert gmap_empty gmap_partial_alter
         String.eq_dec String.countable TestCluster.check_builder];
  reflexivity.

(** Reads one name off an account object given as a list of entries. *)
Ltac lookup_account :=
  cbn; repeat (rewrite lookup_insert_ne by done);
  first [apply lookup_insert_eq | apply lookup_empty].

(** * Properties *)

Local Open Scope list_scope.

Section Facts.
Context {World : Type} `{Imports World}.

(** ** The monad *)

Lemma bind_Return {A B} (m : Async World A) (k : A -> Async World B) s a s' :
  m s = (Return a, s') -> bind m k s = k a s'.
Proof. intros E. unfold bind. now rewrite E. Qed.

Lemma bind_Throw {A B} (m : Async World A) (k : A -> Async World B) s e s' :
  m s = (Throw e, s') -> bind m k s = (Throw e, s').
Proof. intros E. unfold bind. now rewrite E. Qed.

Lemma bind_await {A B} (o : Outcome A) (k : A -> Async World B) s :
  bind (await o) k s
  = match o with
    | Return a => k a s
    | Throw e => (Throw e, s)
    end.
Proof. unfold bind, await. now destruct o. Qed.

Lemma broadcasts_app evs evs' :
  broadcasts (evs ++ evs') = broadcasts evs ++ broadcasts evs'.
Proof. unfold broadcasts. apply filter_app. Qed.

(** ** The conversions *)

Lemma try_toPubkey_Return a k :
  try_toPubkey a = Return k -> toPubkey_error a = None /\ k = toPubkey a.
Proof.
  unfold try_toPubkey. destruct (toPubkey_error a); [discriminate|].
  now intros [= <-].
Qed.

Lemma map_toPubkey_Return addresses ks :
  map_toPubkey addresses = Return ks ->
  ks = map toPubkey addresses
  /\ Forall (fun a => toPubkey_error a = None) addresses.
Proof.
  revert ks. induction addresses as [|a rest IH]; intros ks; cbn.
  - intros [= <-]. split; [reflexivity|constructor].
  - destruct (try_toPubkey a) as [k|e] eqn:Ea; [|discriminate].
    destruct (map_toPubkey rest) as [ks'|e]; [|discriminate].
    intros [= <-]. destruct (try_toPubkey_Return _ _ Ea) as [Hnone ->].
    destruct (IH ks' eq_refl) as [-> Hrest].
    split; [reflexivity|now constructor].
Qed.

Lemma map_toPubkey_Throw addresses e :
  map_toPubkey addresses = Throw e ->
  exists a, In a addresses /\ toPubkey_error a = Some e.
Proof.
  induction addresses as [|a rest IH]; cbn; [discriminate|].
  unfold try_toPubkey at 1.
  destruct (toPubkey_error a) as [ea|] eqn:Ea.
  - intros [= <-]. eauto.
  - destruct (map_toPubkey rest) as [ks'|e']; [discriminate|].
    intros [= <-]. destruct (IH eq_refl) as (a' & Hin & Ha'). eauto.
Qed.

Lemma map_toPubkey_total addresses :
  Forall (fun a => toPubkey_error a = None) addresses ->
  map_toPubkey addresses = Return (map toPubkey addresses).
Proof.
  induction 1 as [|a rest Ha _ IH]; cbn; [reflexivity|].
  unfold try_toPubkey. now rewrite Ha, IH.
Qed.

(** ** Instances built by the constructor *)

Variables (p : AnchorProvider World) (net : Network).

Local Abbreviation self := (new_DripAdminImpl p net).
Local Abbreviation vaultPubkey_of params :=
  (findVaultPubkey (programId (vaultProgram self)) params).

(** [getInitVaultProtoConfigTx], step by step. *)
Lemma getInitVaultProtoConfigTx_run params s :
  getInitVaultProtoConfigTx self params s
  = let (keypair, s1) := settled_keypair params s in
    match initVaultProtoConfig_build self params keypair with
    | Throw e => (Throw e, s1)
    | Return t => (Return (mkTxWithMetadata t (mkKeypairMetadata keypair)), s1)
    end.
Proof.
  unfold getInitVaultProtoConfigTx, initVaultProtoConfig_build, settled_keypair,
    initVaultProtoConfig_builder.
  cbv zeta.
  destruct params as [plain|preview]; cbn [isInitVaultProtoConfigPreview];
    unfold bind at 1; unfold generate, ret at 1;
    [destruct (Keypair_generate (world s)) as [keypair w]|].
  all: rewrite bind_await; destruct (BN_new _) as [granularity|e];
    [|reflexivity].
  all: rewrite bind_await; unfold try_toPubkey;
    destruct (toPubkey_error _) as [e|]; [reflexivity|].
  all: rewrite bind_await; unfold transaction, instruction;
    destruct (anchor_rejects _) as [e|]; reflexivity.
Qed.

(** [getInitVaultTx], step by step. *)
Lemma getInitVaultTx_run params s :
  getInitVaultTx self params s
  = match rpc_fetchNullable p (world s) (vaultPubkey_of params) with
    | Throw e => (Throw e, logged (EvFetchVault (vaultPubkey_of params)) s)
    | Return (Some _) =>
        (Throw (VaultAlreadyExistsError (vaultPubkey_of params)),
         logged (EvFetchVault (vaultPubkey_of params)) s)
    | Return None =>
        match initVault_build_error self params with
        | Some e => (Throw e, logged (EvFetchVault (vaultPubkey_of params)) s)
        | None =>
            match rpc_getLatestBlockhash p (world s) with
            | Throw e =>
                (Throw e,
                 logged EvGetLatestBlockhash
                   (logged (EvFetchVault (vaultPubkey_of params)) s))
            | Return blockhash =>
                (Return
                   (mkTxWithMetadata
                      (mkTransaction (Some blockhash) (Some (wallet_publicKey p))
                         [instruction_of (initVault_builder self params);
                          instruction_of (initVaultPeriod_builder self params)])
                      (mkVaultMetadata (vaultPubkey_of params))),
                 logged EvGetLatestBlockhash
                   (logged (EvFetchVault (vaultPubkey_of params)) s))
            end
        end
    end.
Proof.
  unfold getInitVaultTx. unfold bind at 1. unfold fetchNullable at 1.
  change (program_provider (vaultProgram self)) with p.
  destruct (rpc_fetchNullable p (world s) (vaultPubkey_of params))
    as [[account|]|e]; [reflexivity| |reflexivity].
  cbv zeta.
  unfold initVault_build_error, initVault_builder, initVaultPeriod_builder.
  cbv zeta.
  rewrite bind_await. unfold try_toPubkey at 1.
  destruct (toPubkey_error (InitVaultParams.tokenAMint params)) as [e|];
    [reflexivity|].
  rewrite bind_await. unfold try_toPubkey at 1.
  destruct (toPubkey_error (InitVaultParams.tokenBMint params)) as [e|];
    [reflexivity|].
  rewrite bind_await.
  destruct (map_toPubkey (InitVaultParams.whitelistedSwaps params))
    as [swaps|e] eqn:Eswaps; [|reflexivity].
  apply map_toPubkey_Return in Eswaps as [-> _].
  rewrite bind_await. unfold instruction at 1.
  match goal with
  | |- context [match anchor_rejects ?b with _ => _ end] =>
      destruct (anchor_rejects b) as [e|]; [reflexivity|]
  end.
  rewrite bind_await. unfold instruction at 1.
  match goal with
  | |- context [match anchor_rejects ?b with _ => _ end] =>
      destruct (anchor_rejects b) as [e|]; [reflexivity|]
  end.
  unfold bind at 1. unfold getLatestBlockhash at 1.
  change (provider self) with p.
  change (world (logged (EvFetchVault (vaultPubkey_of params)) s)) with (world s).
  destruct (rpc_getLatestBlockhash p (world s)) as [blockhash|e]; reflexivity.
Qed.

Lemma initVault_build_error_None params :
  initVault_build_error self params = None
  <-> toPubkey_error (InitVaultParams.tokenAMint params) = None
      /\ toPubkey_error (InitVaultParams.tokenBMint params) = None
      /\ Forall (fun a => toPubkey_error a = None)
           (InitVaultParams.whitelistedSwaps params)
      /\ anchor_rejects (initVault_builder self params) = None
      /\ anchor_rejects (initVaultPeriod_builder self params) = None.
Proof.
  unfold initVault_build_error. split.
  - destruct (toPubkey_error (InitVaultParams.tokenAMint params));
      [discriminate|].
    destruct (toPubkey_error (InitVaultParams.tokenBMint params));
      [discriminate|].
    destruct (map_toPubkey (InitVaultParams.whitelistedSwaps params))
      as [ks|e] eqn:Eswaps; [|discriminate].
    destruct (anchor_rejects (initVault_builder self params)); [discriminate|].
    intros Hperiod. apply map_toPubkey_Return in Eswaps as [_ Hswaps]. auto.
  - intros (-> & -> & Hswaps & -> & ->).
    now rewrite (map_toPubkey_total _ Hswaps).
Qed.

Lemma initVault_build_error_Some params e :
  initVault_build_error self params = Some e ->
  toPubkey_error (InitVaultParams.tokenAMint params) = Some e
  \/ toPubkey_error (InitVaultParams.tokenBMint params) = Some e
  \/ (exists a,
        In a (InitVaultParams.whitelistedSwaps params)
        /\ toPubkey_error a = Some e)
  \/ anchor_rejects (initVault_builder self params) = Some e
  \/ anchor_rejects (initVaultPeriod_builder self params) = Some e.
Proof.
  unfold initVault_build_error.
  destruct (toPubkey_error (InitVaultParams.tokenAMint params)); [auto|].
  destruct (toPubkey_error (InitVaultParams.tokenBMint params)); [auto|].
  destruct (map_toPubkey (InitVaultParams.whitelistedSwaps params))
    as [ks|e'] eqn:Eswaps.
  - destruct (anchor_rejects (initVault_builder self params)); auto 6.
  - intros [= <-]. apply map_toPubkey_Throw in Eswaps. auto.
Qed.

(** The ways the fetch at the head of [getInitVaultTx] can end. *)

Lemma getInitVaultTx_taken params s account :
  rpc_fetchNullable p (world s) (vaultPubkey_of params) = Return (Some account) ->
  getInitVaultTx self params s
  = (Throw (VaultAlreadyExistsError (vaultPubkey_of params)),
     logged (EvFetchVault (vaultPubkey_of params)) s).
Proof. intros E. now rewrite getInitVaultTx_run, E. Qed.

Lemma getInitVaultTx_fetch_rejects params s e :
  rpc_fetchNullable p (world s) (vaultPubkey_of params) = Throw e ->
  getInitVaultTx self params s
  = (Throw e, logged (EvFetchVault (vaultPubkey_of params)) s).
Proof. intros E. now rewrite getInitVaultTx_run, E. Qed.

(** A rejection of [getInitVaultTx], by its cause. *)
Lemma getInitVaultTx_rejected params s e s' :
  getInitVaultTx self params s = (Throw e, s') ->
  (s' = logged (EvFetchVault (vaultPubkey_of params)) s
   /\ ((e = VaultAlreadyExistsError (vaultPubkey_of params)
        /\ exists account,
             rpc_fetchNullable p (world s) (vaultPubkey_of params)
             = Return (Some account))
       \/ rpc_fetchNullable p (world s) (vaultPubkey_of params) = Throw e
       \/ (rpc_fetchNullable p (world s) (vaultPubkey_of params) = Return None
           /\ initVault_build_error self params = Some e)))
  \/ (s' = logged EvGetLatestBlockhash
             (logged (EvFetchVault (vaultPubkey_of params)) s)
      /\ rpc_fetchNullable p (world s) (vaultPubkey_of params) = Return None
      /\ initVault_build_error self params = None
      /\ rpc_getLatestBlockhash p (world s) = Throw e).
Proof.
  rewrite getInitVaultTx_run.
  destruct (rpc_fetchNullable p (world s) (vaultPubkey_of params))
    as [[account|]|e1].
  - intros [= <- <-]. left. split; [reflexivity|]. left. eauto.
  - destruct (initVault_build_error self params) as [e2|].
    + intros [= <- <-]. left. split; [reflexivity|]. auto.
    + destruct (rpc_getLatestBlockhash p (world s)) as [blockhash|e3];
        [discriminate|].
      intros [= <- <-]. right. auto.
  - intros [= <- <-]. left. split; [reflexivity|]. auto.
Qed.

(** A returned [getInitVaultTx] result, in full. *)
Lemma getInitVaultTx_returned params s r s' :
  getInitVaultTx self params s = (Return r, s') ->
  exists blockhash,
    rpc_fetchNullable p (world s) (vaultPubkey_of params) = Return None
    /\ initVault_build_error self params = None
    /\ rpc_getLatestBlockhash p (world s) = Return blockhash
    /\ s' = logged EvGetLatestBlockhash
              (logged (EvFetchVault (vaultPubkey_of params)) s)
    /\ r = mkTxWithMetadata
             (mkTransaction (Some blockhash) (Some (wallet_publicKey p))
                [instruction_of (initVault_builder self params);
                 instruction_of (initVaultPeriod_builder self params)])
             (mkVaultMetadata (vaultPubkey_of params)).
Proof.
  rewrite getInitVaultTx_run.
  destruct (rpc_fetchNullable p (world s) (vaultPubkey_of params))
    as [[account|]|e1]; [discriminate| |discriminate].
  destruct (initVault_build_error self params) as [e2|]; [discriminate|].
  destruct (rpc_getLatestBlockhash p (world s)) as [blockhash|e3];
    [|discriminate].
  intros [= <- <-]. eauto 6.
Qed.

(** When [getInitVaultTx] returns. *)
Lemma getInitVaultTx_returns params s blockhash :
  rpc_fetchNullable p (world s) (vaultPubkey_of params) = Return None ->
  initVault_build_error self params = None ->
  rpc_getLatestBlockhash p (world s) = Return blockhash ->
  exists r,
    getInitVaultTx self params s
    = (Return r,
       logged EvGetLatestBlockhash
         (logged (EvFetchVault (vaultPubkey_of params)) s)).
Proof.
  intros E1 E2 E3. rewrite getInitVaultTx_run, E1, E2, E3. eauto.
Qed.

(** Everything a returned [getInitVaultTx] result is made of. *)
Lemma getInitVaultTx_built params s r s' :
  getInitVaultTx self params s = (Return r, s') ->
  exists blockhash initVaultIx initVaultPeriodIx,
    rpc_fetchNullable p (world s) (vaultPubkey_of params) = Return None
    /\ rpc_getLatestBlockhash p (world s) = Return blockhash
    /\ s' = logged EvGetLatestBlockhash
              (logged (EvFetchVault (vaultPubkey_of params)) s)
    /\ metadata r = mkVaultMetadata (vaultPubkey_of params)
    /\ tx r = mkTransaction (Some blockhash) (Some (wallet_publicKey p))
                [initVaultIx; initVaultPeriodIx]
    /\ ix_call initVaultIx
       = initVault_call
           (InitVaultArgs.mk (InitVaultParams.maxSlippageBps params)
              (map toPubkey (InitVaultParams.whitelistedSwaps params)))
    /\ ix_accounts initVaultIx !! "vault" = Some (AddrKey (vaultPubkey_of params))
    /\ ix_accounts initVaultIx !! "vaultPeriod" = None
    /\ ix_call initVaultPeriodIx
       = initVaultPeriod_call (InitVaultPeriodArgs.mk ZERO)
    /\ ix_accounts initVaultPeriodIx !! "vaultPeriod"
       = Some (AddrKey
                 (findVaultPeriodPubkey (programId (vaultProgram self))
                    (VaultPeriodSeeds.mk (vaultPubkey_of params) ZERO)))
    /\ ix_accounts initVaultPeriodIx !! "vault"
       = Some (AddrKey (vaultPubkey_of params)).
Proof.
  intros Erun.
  destruct (getInitVaultTx_returned _ _ _ _ Erun)
    as (blockhash & E1 & _ & E3 & -> & ->).
  exists blockhash, (instruction_of (initVault_builder self params)),
    (instruction_of (initVaultPeriod_builder self params)).
  do 6 (split; [reflexivity || assumption|]).
  split; [lookup_account|]. split; [lookup_account|].
  split; [reflexivity|]. split; lookup_account.
Qed.

(** Whatever the world answers, the run of [getInitVaultTx] starts with the
    fetch and makes at most one more call, for the block hash. *)
Lemma getInitVaultTx_calls params s :
  let s' := snd (getInitVaultTx self params s) in
  world s' = world s
  /\ (trace s' = trace s ++ [EvFetchVault (vaultPubkey_of params)]
      \/ trace s' = trace s ++ [EvFetchVault (vaultPubkey_of params);
                                EvGetLatestBlockhash]).
Proof.
  cbn zeta. rewrite getInitVaultTx_run.
  destruct (rpc_fetchNullable p (world s) (vaultPubkey_of params))
    as [[account|]|e1]; [cbn; auto| |cbn; auto].
  destruct (initVault_build_error self params) as [e2|]; [cbn; auto|].
  destruct (rpc_getLatestBlockhash p (world s)) as [blockhash|e3]; cbn;
    (split; [reflexivity|]); right; now rewrite <- app_assoc.
Qed.

(** C1. [getInitVaultTx] begins by fetching the vault account at the
    address derived from the program id and the parameters.  If the fetch
    finds an account, the call rejects with [VaultAlreadyExistsError] at that
    address, having made no other call and returning no transaction; a
    transaction is returned only when the fetch found no account. *)
Theorem getInitVaultTx_fetch_before_create params s :
  (exists rest,
     trace (snd (getInitVaultTx self params s))
     = trace s ++ EvFetchVault (vaultPubkey_of params) :: rest)
  /\ (forall account,
        rpc_fetchNullable p (world s) (vaultPubkey_of params)
        = Return (Some account) ->
        getInitVaultTx self params s
        = (Throw (VaultAlreadyExistsError (vaultPubkey_of params)),
           logged (EvFetchVault (vaultPubkey_of params)) s))
  /\ (forall r s',
        getInitVaultTx self params s = (Return r, s') ->
        rpc_fetchNullable p (world s) (vaultPubkey_of params) = Return None).
Proof.
  split; [|split].
  - destruct (getInitVaultTx_calls params s) as (_ & [-> | ->]); eauto.
  - intros account E. exact (getInitVaultTx_taken _ _ _ E).
  - intros r s' E.
    destruct (rpc_fetchNullable p (world s) (vaultPubkey_of params))
      as [[account|]|e] eqn:E1; [|reflexivity|].
    + rewrite (getInitVaultTx_taken _ _ _ E1) in E. discriminate.
    + rewrite (getInitVaultTx_fetch_rejects _ _ _ E1) in E. discriminate.
Qed.

(** ** Build, then broadcast *)

Lemma initVaultProtoConfig_run params s :
  initVaultProtoConfig self params s
  = match getInitVaultProtoConfigTx self params s with
    | (Return r, s1) =>
        broadcast_step self r [meta_vaultProtoConfigKeypair (metadata r)] s1
    | (Throw e, s1) => (Throw e, s1)
    end.
Proof.
  unfold initVaultProtoConfig, bind at 1.
  destruct (getInitVaultProtoConfigTx self params s) as [[r|e] s1]; [|reflexivity].
  unfold bind, sendAndConfirm, broadcast_step, ret. cbn.
  destruct (rpc_sendAndConfirm p (world s1) (tx r) _) as [[txHash|e] w];
    reflexivity.
Qed.

Lemma initVault_run params s :
  initVault self params s
  = match getInitVaultTx self params s with
    | (Return r, s1) => broadcast_step self r [] s1
    | (Throw e, s1) => (Throw e, s1)
    end.
Proof.
  unfold initVault, bind at 1.
  destruct (getInitVaultTx self params s) as [[r|e] s1]; [|reflexivity].
  unfold bind, sendAndConfirm, broadcast_step, ret. cbn.
  destruct (rpc_sendAndConfirm p (world s1) (tx r) _) as [[txHash|e] w];
    reflexivity.
Qed.

(** C4. [initVault] broadcasts only after the existence check has passed.
    If the vault account is already there, the call rejects with
    [VaultAlreadyExistsError]; the fetch is the only call it made, the world
    is as it was and nothing was broadcast.  Conversely, whenever a run of
    [initVault] broadcasts anything, the fetch had found no account. *)
Theorem initVault_checks_before_sending params s :
  (forall account,
     rpc_fetchNullable p (world s) (vaultPubkey_of params)
     = Return (Some account) ->
     initVault self params s
     = (Throw (VaultAlreadyExistsError (vaultPubkey_of params)),
        mkState (world s) (trace s ++ [EvFetchVault (vaultPubkey_of params)]))
     /\ broadcasts (trace (snd (initVault self params s)))
        = broadcasts (trace s))
  /\ (forall evs,
        trace (snd (initVault self params s)) = trace s ++ evs ->
        broadcasts evs <> [] ->
        rpc_fetchNullable p (world s) (vaultPubkey_of params) = Return None).
Proof.
  split.
  - intros account E. rewrite initVault_run, (getInitVaultTx_taken _ _ _ E).
    split; [reflexivity|]. cbn. rewrite broadcasts_app. cbn. apply app_nil_r.
  - intros evs Etrace Hsent.
    destruct (rpc_fetchNullable p (world s) (vaultPubkey_of params))
      as [[account|]|e] eqn:E; [|reflexivity|]; exfalso; revert Etrace.
    + rewrite initVault_run, (getInitVaultTx_taken _ _ _ E). cbn.
      intros Eq%app_inv_head. subst evs. now apply Hsent.
    + rewrite initVault_run, (getInitVaultTx_fetch_rejects _ _ _ E). cbn.
      intros Eq%app_inv_head. subst evs. now apply Hsent.
Qed.

(** C5. [initVaultProtoConfig] is [getInitVaultProtoConfigTx] followed by
    one [sendAndConfirm] of the built transaction with the metadata keypair
    as the additional signer; it returns the confirmation hash as [id], its
    explorer URL for the instance's network, and the metadata of the build
    step.  [initVault] composes [getInitVaultTx] with [sendAndConfirm] in the
    same way, without additional signers. *)
Theorem broadcast_is_build_then_send :
  (forall params s r s1 txHash w,
     getInitVaultProtoConfigTx self params s = (Return r, s1) ->
     rpc_sendAndConfirm p (world s1) (tx r)
       [meta_vaultProtoConfigKeypair (metadata r)] = (Return txHash, w) ->
     initVaultProtoConfig self params s
     = (Return (mkBroadcast txHash (makeExplorerUrl txHash net) (metadata r)),
        mkState w
          (trace s1
           ++ [EvSendAndConfirm (tx r)
                 [meta_vaultProtoConfigKeypair (metadata r)]])))
  /\ (forall params s r s1 txHash w,
        getInitVaultTx self params s = (Return r, s1) ->
        rpc_sendAndConfirm p (world s1) (tx r) [] = (Return txHash, w) ->
        initVault self params s
        = (Return (mkBroadcast txHash (makeExplorerUrl txHash net) (metadata r)),
           mkState w (trace s1 ++ [EvSendAndConfirm (tx r) []]))).
Proof.
  split; intros params s r s1 txHash w Ebuild Esend.
  - rewrite initVaultProtoConfig_run, Ebuild. unfold broadcast_step.
    cbn in Esend |- *. now rewrite Esend.
  - rewrite initVault_run, Ebuild. unfold broadcast_step.
    cbn in Esend |- *. now rewrite Esend.
Qed.

(** C8. An error of the provider reaches the caller as it is.  When the
    account fetch rejects with [e], so do [getInitVaultTx] and [initVault],
    and no further call is made; the same holds of the block-hash request,
    once the account was found absent and the two instructions were built
    ([toPubkey] accepted the mints and the swaps, anchor the two builders);
    when [sendAndConfirm] rejects with [e], so does the broadcasting method,
    after that single attempt.  No result value is returned in any of these
    runs. *)
Theorem runtime_errors_propagate e :
  (forall params s,
     rpc_fetchNullable p (world s) (vaultPubkey_of params) = Throw e ->
     getInitVaultTx self params s
     = (Throw e, logged (EvFetchVault (vaultPubkey_of params)) s)
     /\ initVault self params s
        = (Throw e, logged (EvFetchVault (vaultPubkey_of params)) s))
  /\ (forall params s,
        rpc_fetchNullable p (world s) (vaultPubkey_of params) = Return None ->
        toPubkey_error (InitVaultParams.tokenAMint params) = None ->
        toPubkey_error (InitVaultParams.tokenBMint params) = None ->
        Forall (fun a => toPubkey_error a = None)
          (InitVaultParams.whitelistedSwaps params) ->
        anchor_rejects (initVault_builder self params) = None ->
        anchor_rejects (initVaultPeriod_builder self params) = None ->
        rpc_getLatestBlockhash p (world s) = Throw e ->
        getInitVaultTx self params s
        = (Throw e,
           logged EvGetLatestBlockhash
             (logged (EvFetchVault (vaultPubkey_of params)) s))
        /\ initVault self params s
           = (Throw e,
              logged EvGetLatestBlockhash
                (logged (EvFetchVault (vaultPubkey_of params)) s)))
  /\ (forall params s r s1 w,
        getInitVaultTx self params s = (Return r, s1) ->
        rpc_sendAndConfirm p (world s1) (tx r) [] = (Throw e, w) ->
        initVault self params s
        = (Throw e, mkState w (trace s1 ++ [EvSendAndConfirm (tx r) []])))
  /\ (forall params s r s1 w,
        getInitVaultProtoConfigTx self params s = (Return r, s1) ->
        rpc_sendAndConfirm p (world s1) (tx r)
          [meta_vaultProtoConfigKeypair (metadata r)] = (Throw e, w) ->
        initVaultProtoConfig self params s
        = (Throw e,
           mkState w
             (trace s1
              ++ [EvSendAndConfirm (tx r)
                    [meta_vaultProtoConfigKeypair (metadata r)]]))).
Proof.
  split; [|split; [|split]].
  - intros params s E. split.
    + now apply getInitVaultTx_fetch_rejects.
    + rewrite initVault_run. now erewrite getInitVaultTx_fetch_rejects.
  - intros params s E1 HA HB Hswaps HixA HixB E3.
    assert (initVault_build_error self params = None) as E2
      by (apply initVault_build_error_None; auto).
    assert (getInitVaultTx self params s
            = (Throw e,
               logged EvGetLatestBlockhash
                 (logged (EvFetchVault (vaultPubkey_of params)) s))) as Erun
      by now rewrite getInitVaultTx_run, E1, E2, E3.
    split; [exact Erun|]. now rewrite initVault_run, Erun.
  - intros params s r s1 w Ebuild Esend.
    rewrite initVault_run, Ebuild. unfold broadcast_step.
    cbn in Esend |- *. now rewrite Esend.
  - intros params s r s1 w Ebuild Esend.
    rewrite initVaultProtoConfig_run, Ebuild. unfold broadcast_step.
    cbn in Esend |- *. now rewrite Esend.
Qed.

(** ** What the built transactions contain *)

(** A returned [getInitVaultProtoConfigTx] result, in full. *)
Lemma getInitVaultProtoConfigTx_returned params s r s' :
  getInitVaultProtoConfigTx self params s = (Return r, s') ->
  exists keypair granularity,
    settled_keypair params s = (keypair, s')
    /\ BN_new (Number_toString (granularity_of params)) = Return granularity
    /\ toPubkey_error (admin_of params) = None
    /\ anchor_rejects (initVaultProtoConfig_builder self params keypair granularity)
       = None
    /\ r = mkTxWithMetadata
             (mkTransaction None None
                [instruction_of
                   (initVaultProtoConfig_builder self params keypair granularity)])
             (mkKeypairMetadata keypair).
Proof.
  rewrite getInitVaultProtoConfigTx_run.
  destruct (settled_keypair params s) as [keypair s1].
  unfold initVaultProtoConfig_build.
  destruct (BN_new _) as [granularity|e]; [|discriminate].
  destruct (toPubkey_error _) as [e|]; [discriminate|].
  destruct (anchor_rejects _) as [e|] eqn:Eanchor; [discriminate|].
  intros [= <- <-]. eauto 8.
Qed.

(** Whether it returns or not, [getInitVaultProtoConfigTx] ends in the state
    the keypair was settled in. *)
Lemma getInitVaultProtoConfigTx_state params s :
  snd (getInitVaultProtoConfigTx self params s) = snd (settled_keypair params s).
Proof.
  rewrite getInitVaultProtoConfigTx_run.
  destruct (settled_keypair params s) as [keypair s1].
  now destruct (initVaultProtoConfig_build self params keypair).
Qed.


(** C6. The one instruction of a transaction [getInitVaultProtoConfigTx]
    returns is a call of [initVaultProtoConfig] whose arguments are the
    caller's: the granularity as the [BN] read from its decimal string, the
    two spreads as given, and the admin address converted by [toPubkey];
    for plain parameters and for a preview alike. *)
Theorem getInitVaultProtoConfigTx_arguments s r s' :
  (forall plain : InitVaultProtoConfigParams.t,
     getInitVaultProtoConfigTx self (PlainParams plain) s = (Return r, s') ->
     exists ix granularity,
       instructions (tx r) = [ix]
       /\ BN_new (Number_toString (InitVaultProtoConfigParams.granularity plain))
          = Return granularity
       /\ toPubkey_error (InitVaultProtoConfigParams.admin plain) = None
       /\ ix_call ix
          = initVaultProtoConfig_call
              (InitVaultProtoConfigArgs.mk
                 granularity
                 (InitVaultProtoConfigParams.tokenADripTriggerSpread plain)
                 (InitVaultProtoConfigParams.tokenBWithdrawalSpread plain)
                 (toPubkey (InitVaultProtoConfigParams.admin plain))))
  /\ (forall preview : InitVaultProtoConfigPreview.t,
        getInitVaultProtoConfigTx self (Preview preview) s = (Return r, s') ->
        exists ix granularity,
          instructions (tx r) = [ix]
          /\ BN_new
               (Number_toString (InitVaultProtoConfigPreview.granularity preview))
             = Return granularity
          /\ toPubkey_error (InitVaultProtoConfigPreview.admin preview) = None
          /\ ix_call ix
             = initVaultProtoConfig_call
                 (InitVaultProtoConfigArgs.mk
                    granularity
                    (InitVaultProtoConfigPreview.tokenADripTriggerSpread preview)
                    (InitVaultProtoConfigPreview.tokenBWithdrawalSpread preview)
                    (toPubkey (InitVaultProtoConfigPreview.admin preview)))).
Proof.
  split; intros params Erun;
    destruct (getInitVaultProtoConfigTx_returned _ _ _ _ Erun)
      as (keypair & granularity & _ & Ebn & Eadmin & _ & ->).
  all: do 2 eexists.
  all: split; [reflexivity|].
  all: split; [exact Ebn|].
  all: split; [exact Eadmin|reflexivity].
Qed.

(** C7. [getInitVaultProtoConfigPreview] generates one keypair and returns
    the input's four fields as they were, together with that keypair as the
    one further field. *)
Theorem getInitVaultProtoConfigPreview_extends_params
  (params : InitVaultProtoConfigParams.t) s :
  exists keypair w preview,
    Keypair_generate (world s) = (keypair, w)
    /\ getInitVaultProtoConfigPreview self params s
       = (Return preview, mkState w (trace s ++ [EvGenerateKeypair keypair]))
    /\ preview
       = InitVaultProtoConfigPreview.mk
           (InitVaultProtoConfigParams.granularity params)
           (InitVaultProtoConfigParams.tokenADripTriggerSpread params)
           (InitVaultProtoConfigParams.tokenBWithdrawalSpread params)
           (InitVaultProtoConfigParams.admin params)
           keypair
    /\ params_of_preview preview = params.
Proof.
  unfold getInitVaultProtoConfigPreview, bind, generate, ret.
  destruct (Keypair_generate (world s)) as [keypair w].
  do 3 eexists. repeat split. now destruct params.
Qed.

(** The two instructions of a returned [getInitVaultTx] result, with their
    account objects as the method writes them. *)
Lemma getInitVaultTx_accounts params s r s' :
  getInitVaultTx self params s = (Return r, s') ->
  exists initVaultIx initVaultPeriodIx,
    instructions (tx r) = [initVaultIx; initVaultPeriodIx]
    /\ ix_programId initVaultIx = programId (vaultProgram self)
    /\ ix_programId initVaultPeriodIx = programId (vaultProgram self)
    /\ ix_signers initVaultIx = []
    /\ ix_signers initVaultPeriodIx = []
    /\ ix_accounts initVaultIx
       = list_to_map
           [("vault", AddrKey (vaultPubkey_of params));
            ("vaultProtoConfig", InitVaultParams.protoConfig params);
            ("tokenAAccount",
             AddrKey
               (getAssociatedTokenAddress
                  (toPubkey (InitVaultParams.tokenAMint params))
                  (vaultPubkey_of params) true
                  TOKEN_PROGRAM_ID ASSOCIATED_TOKEN_PROGRAM_ID));
            ("tokenBAccount",
             AddrKey
               (getAssociatedTokenAddress
                  (toPubkey (InitVaultParams.tokenBMint params))
                  (vaultPubkey_of params) true
                  TOKEN_PROGRAM_ID ASSOCIATED_TOKEN_PROGRAM_ID));
            ("treasuryTokenBAccount", InitVaultParams.tokenBFeeTreasury params);
            ("tokenAMint", InitVaultParams.tokenAMint params);
            ("tokenBMint", InitVaultParams.tokenBMint params);
            ("creator", AddrKey (wallet_publicKey p));
            ("tokenProgram", AddrKey TOKEN_PROGRAM_ID);
            ("associatedTokenProgram", AddrKey ASSOCIATED_TOKEN_PROGRAM_ID);
            ("systemProgram", AddrKey SystemProgram_programId);
            ("rent", AddrKey SYSVAR_RENT_PUBKEY)]
    /\ ix_accounts initVaultPeriodIx
       = list_to_map
           [("vaultPeriod",
             AddrKey
               (findVaultPeriodPubkey (programId (vaultProgram self))
                  (VaultPeriodSeeds.mk (vaultPubkey_of params) ZERO)));
            ("vault", AddrKey (vaultPubkey_of params));
            ("tokenAMint", InitVaultParams.tokenAMint params);
            ("tokenBMint", InitVaultParams.tokenBMint params);
            ("vaultProtoConfig", InitVaultParams.protoConfig params);
            ("creator", AddrKey (wallet_publicKey p));
            ("systemProgram", AddrKey SystemProgram_programId)].
Proof.
  intros Erun.
  destruct (getInitVaultTx_returned _ _ _ _ Erun) as (blockhash & _ & _ & _ & _ & ->).
  do 2 eexists. repeat split.
Qed.

(** C9. The transaction [getInitVaultTx] returns when the vault is not
    there yet has exactly two instructions: [initVault] first, then
    [initVaultPeriod] with period id [ZERO] at the vault-period address
    derived for that vault and period; the fee payer is the provider's
    wallet and the block hash the one the provider gave. *)
Theorem getInitVaultTx_instructions params s r s' :
  getInitVaultTx self params s = (Return r, s') ->
  exists blockhash initVaultIx initVaultPeriodIx,
    rpc_fetchNullable p (world s) (vaultPubkey_of params) = Return None
    /\ rpc_getLatestBlockhash p (world s) = Return blockhash
    /\ instructions (tx r) = [initVaultIx; initVaultPeriodIx]
    /\ ix_call initVaultIx
       = initVault_call
           (InitVaultArgs.mk (InitVaultParams.maxSlippageBps params)
              (map toPubkey (InitVaultParams.whitelistedSwaps params)))
    /\ ix_accounts initVaultIx !! "vault" = Some (AddrKey (vaultPubkey_of params))
    /\ ix_call initVaultPeriodIx
       = initVaultPeriod_call (InitVaultPeriodArgs.mk ZERO)
    /\ ix_accounts initVaultPeriodIx !! "vaultPeriod"
       = Some (AddrKey
                 (findVaultPeriodPubkey (programId (vaultProgram self))
                    (VaultPeriodSeeds.mk (vaultPubkey_of params) ZERO)))
    /\ ix_accounts initVaultPeriodIx !! "vault"
       = Some (AddrKey (vaultPubkey_of params))
    /\ feePayer (tx r) = Some (wallet_publicKey p)
    /\ recentBlockhash (tx r) = Some blockhash.
Proof.
  intros Erun.
  destruct (getInitVaultTx_built _ _ _ _ Erun)
    as (blockhash & ixA & ixB & E1 & E2 & _ & _ & Etx
        & HA & HAv & _ & HB & HBp & HBv).
  exists blockhash, ixA, ixB. rewrite Etx. cbn.
  repeat split; assumption.
Qed.

End Facts.

(** ** Derived addresses *)

Section Derivation.
Context {World : Type} `{Imports World}.
Variable net : Network.

(** C3. The addresses [getInitVaultTx] works with are functions of the
    program id and the parameters alone.  For any two providers and any two
    states of the world in which the call returns, the address that was
    fetched, the [vaultPubkey] of the metadata and the vault-period account
    of the transaction are the same in both runs: the vault address derived
    by [findVaultPubkey], and the address [findVaultPeriodPubkey] derives
    for that vault and period [ZERO].  The derivations themselves depend on
    their second argument through its seeds only. *)
Theorem derived_addresses_are_deterministic
  (p1 p2 : AnchorProvider World) params s1 s2 r1 r2 s1' s2' :
  getInitVaultTx (new_DripAdminImpl p1 net) params s1 = (Return r1, s1') ->
  getInitVaultTx (new_DripAdminImpl p2 net) params s2 = (Return r2, s2') ->
  let program := vaultProgramId (Configs devnet net) in
  let vault := findVaultPubkey program params in
  let period :=
    findVaultPeriodPubkey program (VaultPeriodSeeds.mk vault ZERO) in
  (meta_vaultPubkey (metadata r1) = vault
   /\ vaultPeriod_accounts (tx r1) = [AddrKey period]
   /\ trace s1' = trace s1 ++ [EvFetchVault vault; EvGetLatestBlockhash])
  /\ (meta_vaultPubkey (metadata r2) = vault
      /\ vaultPeriod_accounts (tx r2) = [AddrKey period]
      /\ trace s2' = trace s2 ++ [EvFetchVault vault; EvGetLatestBlockhash])
  /\ meta_vaultPubkey (metadata r1) = meta_vaultPubkey (metadata r2)
  /\ vaultPeriod_accounts (tx r1) = vaultPeriod_accounts (tx r2)
  /\ (forall params',
        vaultSeeds params' = vaultSeeds params ->
        findVaultPubkey program params' = vault)
  /\ (forall seeds',
        vaultPeriodSeeds seeds' = vaultPeriodSeeds (VaultPeriodSeeds.mk vault ZERO) ->
        findVaultPeriodPubkey program seeds' = period).
Proof.
  intros E1 E2 pid vault period.
  assert (forall p s r s',
            getInitVaultTx (new_DripAdminImpl p net) params s = (Return r, s') ->
            meta_vaultPubkey (metadata r) = vault
            /\ vaultPeriod_accounts (tx r) = [AddrKey period]
            /\ trace s' = trace s ++ [EvFetchVault vault; EvGetLatestBlockhash])
    as Hrun.
  { intros p s r s' E.
    destruct (getInitVaultTx_built _ _ _ _ _ _ E)
      as (blockhash & ixA & ixB & _ & _ & -> & -> & -> & _ & _ & HA & _ & HB & _).
    split; [reflexivity|]. split.
    - unfold vaultPeriod_accounts. cbn [tx instructions omap].
      unfold omap, list_omap. now rewrite HA, HB.
    - cbn. now rewrite <- app_assoc. }
  destruct (Hrun _ _ _ _ E1) as (M1 & P1 & T1).
  destruct (Hrun _ _ _ _ E2) as (M2 & P2 & T2).
  do 4 (split; [repeat split; congruence|]).
  split.
  - intros params' Eseeds. unfold vault, findVaultPubkey. now rewrite Eseeds.
  - intros seeds' Eseeds. unfold period, findVaultPeriodPubkey.
    now rewrite Eseeds.
Qed.

(** C10. The mainnet entry of [Configs] is a placeholder: the default
    (all-zero) public key as program id and three empty records, so an
    instance constructed for mainnet addresses the default program id.  The
    devnet entry is the imported devnet configuration, and it is the only
    entry that is not the placeholder's. *)
Theorem mainnet_config_is_placeholder :
  vaultProgramId (Configs devnet Mainnet) = PublicKey_default
  /\ pk_bn PublicKey_default = 0%N
  /\ tokens (Configs devnet Mainnet) = ∅
  /\ vaultProtoConfigs (Configs devnet Mainnet) = ∅
  /\ vaults (Configs devnet Mainnet) = ∅
  /\ (forall p : AnchorProvider World,
        programId (vaultProgram (new_DripAdminImpl p Mainnet)) = PublicKey_default)
  /\ Configs devnet Devnet = devnet
  /\ (forall network,
        network <> Devnet ->
        Configs devnet network = mkConfig PublicKey_default ∅ ∅ ∅).
Proof.
  repeat split. intros [|] Hnet; [reflexivity|]. now contradict Hnet.
Qed.

End Derivation.

(** * Further properties of the client *)

Section Further.
Context {World : Type} `{Imports World}.
Variables (p : AnchorProvider World) (net : Network).

Local Abbreviation self := (new_DripAdminImpl p net).
Local Abbreviation vaultPubkey_of params :=
  (findVaultPubkey (programId (vaultProgram self)) params).

(** ** The proto-config methods *)

(** X1. On plain parameters [getInitVaultProtoConfigTx] calls the key
    generator exactly once and makes no other call, whether the build then
    goes through or not.  When it returns, the keypair it got is the one the
    caller receives in the metadata and its public key is the
    [vaultProtoConfig] account of the instruction; the instruction names
    exactly the accounts [vaultProtoConfig], [creator] (the wallet) and
    [systemProgram], and is addressed to the instance's program. *)
Theorem getInitVaultProtoConfigTx_generates_once
  (params : InitVaultProtoConfigParams.t) s :
  exists keypair w,
    Keypair_generate (world s) = (keypair, w)
    /\ snd (getInitVaultProtoConfigTx self (PlainParams params) s)
       = mkState w (trace s ++ [EvGenerateKeypair keypair])
    /\ (forall r s',
          getInitVaultProtoConfigTx self (PlainParams params) s = (Return r, s') ->
          exists ix,
            meta_vaultProtoConfigKeypair (metadata r) = keypair
            /\ instructions (tx r) = [ix]
            /\ ix_programId ix = vaultProgramId (Configs devnet net)
            /\ ix_accounts ix !! "vaultProtoConfig"
               = Some (AddrKey (publicKey keypair))
            /\ ix_accounts ix !! "creator" = Some (AddrKey (wallet_publicKey p))
            /\ dom (ix_accounts ix)
               = list_to_set ["vaultProtoConfig"; "creator"; "systemProgram"]).
Proof.
  destruct (Keypair_generate (world s)) as [keypair w] eqn:Egen.
  exists keypair, w. split; [reflexivity|].
  assert (settled_keypair (PlainParams params) s
          = (keypair, mkState w (trace s ++ [EvGenerateKeypair keypair])))
    as Esettled by (cbn; now rewrite Egen).
  split; [now rewrite getInitVaultProtoConfigTx_state, Esettled|].
  intros r s' Erun.
  destruct (getInitVaultProtoConfigTx_returned _ _ _ _ _ _ Erun)
    as (keypair' & granularity & Esettled' & _ & _ & _ & ->).
  rewrite Esettled in Esettled'. injection Esettled' as <- _.
  eexists. do 3 (split; [reflexivity|]).
  split; [lookup_account|]. split; [lookup_account|].
  cbn [ix_accounts instruction_of initVaultProtoConfig_builder signers accounts
       mb_accounts].
  now rewrite dom_list_to_map_L.
Qed.

(** X2. Preview, then commit: building (or broadcasting) from the preview
    that [getInitVaultProtoConfigPreview] returns is the same computation as
    building (or broadcasting) from the plain parameters.  Both make the same
    calls in the same order and end with the same outcome in the same
    state. *)
Theorem preview_then_commit (params : InitVaultProtoConfigParams.t) s :
  (preview <- getInitVaultProtoConfigPreview self params ;;
   getInitVaultProtoConfigTx self (Preview preview)) s
  = getInitVaultProtoConfigTx self (PlainParams params) s
  /\ (preview <- getInitVaultProtoConfigPreview self params ;;
      initVaultProtoConfig self (Preview preview)) s
     = initVaultProtoConfig self (PlainParams params) s.
Proof.
  assert (forall keypair,
            initVaultProtoConfig_build self
              (Preview
                 (InitVaultProtoConfigPreview.mk
                    (InitVaultProtoConfigParams.granularity params)
                    (InitVaultProtoConfigParams.tokenADripTriggerSpread params)
                    (InitVaultProtoConfigParams.tokenBWithdrawalSpread params)
                    (InitVaultProtoConfigParams.admin params)
                    keypair))
              keypair
            = initVaultProtoConfig_build self (PlainParams params) keypair)
    as Esame by reflexivity.
  assert ((preview <- getInitVaultProtoConfigPreview self params ;;
           getInitVaultProtoConfigTx self (Preview preview)) s
          = getInitVaultProtoConfigTx self (PlainParams params) s) as Ebuild.
  { unfold getInitVaultProtoConfigPreview, bind at 1.
    unfold bind, generate, ret.
    rewrite (getInitVaultProtoConfigTx_run p net (PlainParams params)).
    cbn [settled_keypair].
    destruct (Keypair_generate (world s)) as [keypair w].
    rewrite getInitVaultProtoConfigTx_run. cbn [settled_keypair].
    now rewrite Esame. }
  split; [exact Ebuild|].
  rewrite initVaultProtoConfig_run, <- Ebuild.
  unfold bind at 1.
  unfold getInitVaultProtoConfigPreview, bind, generate, ret.
  destruct (Keypair_generate (world s)) as [keypair w].
  now rewrite initVaultProtoConfig_run.
Qed.

(** X3. A run of [initVaultProtoConfig] broadcasts exactly when its build
    returned, and then once, right after the build: the built transaction,
    with the metadata keypair as additional signer, whose public key is the
    [vaultProtoConfig] account.  In that case the call returns exactly when
    the broadcast is confirmed, with the build's metadata and the explorer
    URL of the returned id on the instance's network, and rejects exactly
    with the error of the broadcast.  When the build rejects, the call
    rejects with the build's error and nothing is broadcast. *)
Theorem initVaultProtoConfig_broadcast (params : ParamsOrPreview) s :
  (forall r s1,
     getInitVaultProtoConfigTx self params s = (Return r, s1) ->
     let keypair := meta_vaultProtoConfigKeypair (metadata r) in
     trace (snd (initVaultProtoConfig self params s))
     = trace s1 ++ [EvSendAndConfirm (tx r) [keypair]]
     /\ broadcasts (trace s1) = broadcasts (trace s)
     /\ (exists ix,
           instructions (tx r) = [ix]
           /\ ix_accounts ix !! "vaultProtoConfig"
              = Some (AddrKey (publicKey keypair)))
     /\ (forall b s',
           initVaultProtoConfig self params s = (Return b, s') ->
           broadcast_metadata b = metadata r
           /\ explorer b = makeExplorerUrl (id b) net
           /\ fst (rpc_sendAndConfirm p (world s1) (tx r) [keypair])
              = Return (id b))
     /\ (forall e s',
           initVaultProtoConfig self params s = (Throw e, s') ->
           fst (rpc_sendAndConfirm p (world s1) (tx r) [keypair]) = Throw e))
  /\ (forall e s1,
        getInitVaultProtoConfigTx self params s = (Throw e, s1) ->
        initVaultProtoConfig self params s = (Throw e, s1)
        /\ broadcasts (trace s1) = broadcasts (trace s)).
Proof.
  assert (broadcasts (trace (snd (getInitVaultProtoConfigTx self params s)))
          = broadcasts (trace s)) as Equiet.
  { rewrite getInitVaultProtoConfigTx_state.
    destruct params as [plain|preview]; cbn; [|reflexivity].
    destruct (Keypair_generate (world s)) as [keypair w]. cbn.
    rewrite broadcasts_app. cbn. apply app_nil_r. }
  split.
  - intros r s1 Erun. cbn zeta. rewrite Erun in Equiet. cbn in Equiet.
    destruct (getInitVaultProtoConfigTx_returned _ _ _ _ _ _ Erun)
      as (keypair & granularity & _ & _ & _ & _ & Er).
    rewrite initVaultProtoConfig_run, Erun. unfold broadcast_step. cbn.
    destruct (rpc_sendAndConfirm p (world s1) (tx r)
                [meta_vaultProtoConfigKeypair (metadata r)])
      as [[txHash|e] w]; cbn.
    all: split; [reflexivity|].
    all: split; [exact Equiet|].
    all: split;
      [rewrite Er; eexists; split; [reflexivity|lookup_account]|].
    all: split; intros ? ? [= <- _]; auto.
  - intros e s1 Erun. rewrite Erun in Equiet.
    now rewrite initVaultProtoConfig_run, Erun.
Qed.

(** ** The vault methods *)

(** X4. [getInitVaultTx] returns a transaction exactly when the fetch finds
    no account, [toPubkey] accepts the two mints and every whitelisted swap,
    anchor accepts the two builders, and a block hash is obtained.  It
    rejects for one of four reasons only: the account exists
    ([VaultAlreadyExistsError] at the derived address); the fetch rejected;
    the account being absent, [toPubkey] or anchor refused the parameters,
    in which case no block hash is requested; or the block-hash request
    rejected.  In the last three cases the error is the collaborator's. *)
Theorem getInitVaultTx_outcomes params s :
  ((exists r s', getInitVaultTx self params s = (Return r, s'))
   <-> rpc_fetchNullable p (world s) (vaultPubkey_of params) = Return None
       /\ toPubkey_error (InitVaultParams.tokenAMint params) = None
       /\ toPubkey_error (InitVaultParams.tokenBMint params) = None
       /\ Forall (fun a => toPubkey_error a = None)
            (InitVaultParams.whitelistedSwaps params)
       /\ anchor_rejects (initVault_builder self params) = None
       /\ anchor_rejects (initVaultPeriod_builder self params) = None
       /\ exists blockhash, rpc_getLatestBlockhash p (world s) = Return blockhash)
  /\ (forall e s',
        getInitVaultTx self params s = (Throw e, s') ->
        (e = VaultAlreadyExistsError (vaultPubkey_of params)
         /\ exists account,
              rpc_fetchNullable p (world s) (vaultPubkey_of params)
              = Return (Some account))
        \/ rpc_fetchNullable p (world s) (vaultPubkey_of params) = Throw e
        \/ (rpc_fetchNullable p (world s) (vaultPubkey_of params) = Return None
            /\ s' = logged (EvFetchVault (vaultPubkey_of params)) s
            /\ (toPubkey_error (InitVaultParams.tokenAMint params) = Some e
                \/ toPubkey_error (InitVaultParams.tokenBMint params) = Some e
                \/ (exists a,
                      In a (InitVaultParams.whitelistedSwaps params)
                      /\ toPubkey_error a = Some e)
                \/ anchor_rejects (initVault_builder self params) = Some e
                \/ anchor_rejects (initVaultPeriod_builder self params) = Some e))
        \/ (rpc_fetchNullable p (world s) (vaultPubkey_of params) = Return None
            /\ rpc_getLatestBlockhash p (world s) = Throw e)).
Proof.
  split; [split|].
  - intros (r & s' & Erun).
    destruct (getInitVaultTx_returned _ _ _ _ _ _ Erun)
      as (blockhash & E1 & E2 & E3 & _).
    apply initVault_build_error_None in E2
      as (HA & HB & Hswaps & HixA & HixB).
    eauto 10.
  - intros (E1 & HA & HB & Hswaps & HixA & HixB & blockhash & E3).
    assert (initVault_build_error self params = None) as E2
      by (apply initVault_build_error_None; auto).
    destruct (getInitVaultTx_returns _ _ _ _ _ E1 E2 E3) as (r & Erun). eauto.
  - intros e s' Erun.
    destruct (getInitVaultTx_rejected _ _ _ _ _ _ Erun)
      as [(-> & [Hexists | [Hfetch | (E1 & E2)]]) | (_ & E1 & _ & E3)].
    + left. exact Hexists.
    + right. left. exact Hfetch.
    + right. right. left. split; [exact E1|]. split; [reflexivity|].
      now apply initVault_build_error_Some.
    + right. right. right. split; [exact E1|exact E3].
Qed.

(** X5. The build and preview methods never broadcast: whatever the world
    answers, the broadcasts logged after [getInitVaultTx],
    [getInitVaultProtoConfigTx] or [getInitVaultProtoConfigPreview] are
    those logged before. *)
Theorem build_methods_never_broadcast s :
  (forall params,
     broadcasts (trace (snd (getInitVaultTx self params s)))
     = broadcasts (trace s))
  /\ (forall params,
        broadcasts (trace (snd (getInitVaultProtoConfigTx self params s)))
        = broadcasts (trace s))
  /\ (forall params,
        broadcasts (trace (snd (getInitVaultProtoConfigPreview self params s)))
        = broadcasts (trace s)).
Proof.
  split; [|split]; intros params.
  - destruct (getInitVaultTx_calls p net params s) as (_ & [-> | ->]);
      rewrite broadcasts_app; cbn; apply app_nil_r.
  - rewrite getInitVaultProtoConfigTx_state.
    destruct params as [plain|preview]; cbn; [|reflexivity].
    destruct (Keypair_generate (world s)) as [keypair w]. cbn.
    rewrite broadcasts_app. cbn. apply app_nil_r.
  - unfold getInitVaultProtoConfigPreview, bind, generate, ret.
    destruct (Keypair_generate (world s)) as [keypair w]. cbn.
    rewrite broadcasts_app. cbn. apply app_nil_r.
Qed.

(** X6. A run of [initVault] broadcasts at most once, and it broadcasts
    exactly when [getInitVaultTx] returned a transaction; what it sends is
    that transaction, with no additional signers. *)
Theorem initVault_broadcasts_at_most_once params s :
  exists evs,
    trace (snd (initVault self params s)) = trace s ++ evs
    /\ (length (broadcasts evs) <= 1)%nat
    /\ (broadcasts evs <> []
        <-> exists r s1, getInitVaultTx self params s = (Return r, s1))
    /\ (forall t extra,
          In (EvSendAndConfirm t extra) evs ->
          extra = []
          /\ exists r s1,
               getInitVaultTx self params s = (Return r, s1) /\ t = tx r).
Proof.
  rewrite initVault_run.
  destruct (getInitVaultTx self params s) as [[r|e] s1] eqn:Erun.
  - destruct (getInitVaultTx_built _ _ _ _ _ _ Erun)
      as (blockhash & _ & _ & _ & _ & -> & _).
    unfold broadcast_step. cbn.
    destruct (rpc_sendAndConfirm p (world s) (tx r) []) as [answer w]. cbn.
    exists [EvFetchVault (vaultPubkey_of params); EvGetLatestBlockhash;
            EvSendAndConfirm (tx r) []].
    split; [now rewrite <- !app_assoc|]. cbn.
    split; [constructor|]. split; [split; [eauto|discriminate]|].
    intros t extra [[=]|[[=]|[[= <- <-]|[]]]]. eauto.
  - pose proof (getInitVaultTx_calls p net params s) as (_ & Hcalls).
    rewrite Erun in Hcalls. cbn in Hcalls |- *.
    destruct Hcalls as [-> | ->]; eexists; (split; [reflexivity|]); cbn.
    all: split; [auto|].
    all: split; [split; [intros []; reflexivity|intros (? & ? & [=])]|].
    + intros t extra [[=]|[]].
    + intros t extra [[=]|[[=]|[]]].
Qed.

(** X7. The two instructions of a built init-vault transaction agree with
    each other and with the parameters: both are addressed to the instance's
    program and name the same vault, the caller's two mints and proto config,
    and the wallet as creator; the vault's token accounts are the associated
    token addresses of the two mints (converted by [toPubkey]) owned by the
    vault, with off-curve owners allowed; the treasury is the caller's. *)
Theorem getInitVaultTx_accounts_agree params s r s' :
  getInitVaultTx self params s = (Return r, s') ->
  exists initVaultIx initVaultPeriodIx,
    instructions (tx r) = [initVaultIx; initVaultPeriodIx]
    /\ ix_programId initVaultIx = vaultProgramId (Configs devnet net)
    /\ ix_programId initVaultPeriodIx = vaultProgramId (Configs devnet net)
    /\ Forall
         (fun name =>
            ix_accounts initVaultIx !! name
            = ix_accounts initVaultPeriodIx !! name
            /\ ix_accounts initVaultIx !! name <> None)
         ["vault"; "tokenAMint"; "tokenBMint"; "vaultProtoConfig"; "creator";
          "systemProgram"]
    /\ ix_accounts initVaultIx !! "vault"
       = Some (AddrKey (meta_vaultPubkey (metadata r)))
    /\ ix_accounts initVaultIx !! "tokenAMint"
       = Some (InitVaultParams.tokenAMint params)
    /\ ix_accounts initVaultIx !! "tokenBMint"
       = Some (InitVaultParams.tokenBMint params)
    /\ ix_accounts initVaultIx !! "vaultProtoConfig"
       = Some (InitVaultParams.protoConfig params)
    /\ ix_accounts initVaultIx !! "creator" = Some (AddrKey (wallet_publicKey p))
    /\ ix_accounts initVaultIx !! "treasuryTokenBAccount"
       = Some (InitVaultParams.tokenBFeeTreasury params)
    /\ ix_accounts initVaultIx !! "tokenAAccount"
       = Some (AddrKey
                 (getAssociatedTokenAddress
                    (toPubkey (InitVaultParams.tokenAMint params))
                    (meta_vaultPubkey (metadata r)) true
                    TOKEN_PROGRAM_ID ASSOCIATED_TOKEN_PROGRAM_ID))
    /\ ix_accounts initVaultIx !! "tokenBAccount"
       = Some (AddrKey
                 (getAssociatedTokenAddress
                    (toPubkey (InitVaultParams.tokenBMint params))
                    (meta_vaultPubkey (metadata r)) true
                    TOKEN_PROGRAM_ID ASSOCIATED_TOKEN_PROGRAM_ID)).
Proof.
  intros Erun.
  destruct (getInitVaultTx_built _ _ _ _ _ _ Erun)
    as (_ & _ & _ & _ & _ & _ & -> & _).
  destruct (getInitVaultTx_accounts _ _ _ _ _ _ Erun)
    as (ixA & ixB & Eixs & EpA & EpB & _ & _ & EA & EB).
  exists ixA, ixB. rewrite EA, EB.
  split; [exact Eixs|]. split; [exact EpA|]. split; [exact EpB|].
  split.
  { repeat (apply Forall_cons_2; [split|]); try apply Forall_nil_2.
    all: match goal with
         | |- _ = _ => etransitivity; [lookup_account|symmetry; lookup_account]
         | |- _ <> None => apply not_eq_None_Some; eexists; lookup_account
         end. }
  repeat split; lookup_account.
Qed.

(** X8. The instructions of a built init-vault transaction name exactly the
    accounts the program's two methods take: twelve for [initVault], seven
    for [initVaultPeriod], none missing and none besides; and neither
    instruction registers a signer of its own. *)
Theorem getInitVaultTx_account_names params s r s' :
  getInitVaultTx self params s = (Return r, s') ->
  exists initVaultIx initVaultPeriodIx,
    instructions (tx r) = [initVaultIx; initVaultPeriodIx]
    /\ dom (ix_accounts initVaultIx)
       = list_to_set
           ["vault"; "vaultProtoConfig"; "tokenAAccount"; "tokenBAccount";
            "treasuryTokenBAccount"; "tokenAMint"; "tokenBMint"; "creator";
            "tokenProgram"; "associatedTokenProgram"; "systemProgram"; "rent"]
    /\ size (ix_accounts initVaultIx) = 12%nat
    /\ dom (ix_accounts initVaultPeriodIx)
       = list_to_set
           ["vaultPeriod"; "vault"; "tokenAMint"; "tokenBMint";
            "vaultProtoConfig"; "creator"; "systemProgram"]
    /\ size (ix_accounts initVaultPeriodIx) = 7%nat
    /\ ix_signers initVaultIx = []
    /\ ix_signers initVaultPeriodIx = [].
Proof.
  intros Erun.
  destruct (getInitVaultTx_accounts _ _ _ _ _ _ Erun)
    as (ixA & ixB & Eixs & _ & _ & EsA & EsB & EA & EB).
  exists ixA, ixB. rewrite EA, EB.
  split; [exact Eixs|].
  split; [now rewrite dom_list_to_map_L|].
  split.
  { rewrite <- (size_dom (D := gset string)), dom_list_to_map_L.
    rewrite size_list_to_set; [reflexivity|].
    cbn. apply (bool_decide_unpack _). vm_compute. exact I. }
  split; [now rewrite dom_list_to_map_L|].
  split.
  { rewrite <- (size_dom (D := gset string)), dom_list_to_map_L.
    rewrite size_list_to_set; [reflexivity|].
    cbn. apply (bool_decide_unpack _). vm_compute. exact I. }
  split; assumption.
Qed.

(** X9. Calling [initVault] again after it succeeded: if the fetch now
    finds the vault account, the second call rejects with
    [VaultAlreadyExistsError] at the same address after its fetch alone, so
    the two calls together have broadcast exactly once. *)
Theorem initVault_twice params s b s1 account :
  initVault self params s = (Return b, s1) ->
  rpc_fetchNullable p (world s1) (vaultPubkey_of params) = Return (Some account) ->
  bind (initVault self params) (fun _ => initVault self params) s
  = (Throw (VaultAlreadyExistsError (meta_vaultPubkey (broadcast_metadata b))),
     logged (EvFetchVault (meta_vaultPubkey (broadcast_metadata b))) s1)
  /\ length (broadcasts
               (trace (snd (bind (initVault self params)
                              (fun _ => initVault self params) s))))
     = S (length (broadcasts (trace s))).
Proof.
  intros Efirst Etaken.
  assert (meta_vaultPubkey (broadcast_metadata b) = vaultPubkey_of params
          /\ broadcasts (trace s1) = broadcasts (trace s) ++ broadcasts (skipn (length (trace s)) (trace s1))
          /\ length (broadcasts (skipn (length (trace s)) (trace s1))) = 1%nat)
    as (Emeta & Esplit & Eone).
  { revert Efirst. rewrite initVault_run.
    destruct (getInitVaultTx self params s) as [[r|e] s0] eqn:Ebuild;
      [|discriminate].
    destruct (getInitVaultTx_built _ _ _ _ _ _ Ebuild)
      as (blockhash & _ & _ & _ & _ & -> & Emeta & _).
    unfold broadcast_step. cbn.
    destruct (rpc_sendAndConfirm p (world s) (tx r) []) as [[txHash|e] w];
      [|discriminate].
    intros [= <- <-]. cbn. rewrite Emeta. split; [reflexivity|].
    rewrite <- !app_assoc, skipn_app, skipn_all, Nat.sub_diag.
    rewrite !broadcasts_app. cbn. auto. }
  erewrite bind_Return by exact Efirst.
  rewrite initVault_run, (getInitVaultTx_taken _ _ _ _ _ Etaken), Emeta.
  split; [reflexivity|]. cbn.
  rewrite broadcasts_app, Esplit. cbn.
  rewrite app_nil_r, length_app, Eone. lia.
Qed.

(** X10. When [initVault] returns, it made exactly three calls, in this
    order: the fetch at the derived address, which found no account, the
    block-hash request, and one broadcast without additional signers, whose
    confirmation hash is the returned id.  The returned [vaultPubkey] is the
    address that was fetched and the [vault] account of both instructions of
    the transaction that was broadcast; the explorer URL is that of the
    returned id on the instance's network. *)
Theorem initVault_success params s b s' :
  initVault self params s = (Return b, s') ->
  exists t initVaultIx initVaultPeriodIx,
    let vault := meta_vaultPubkey (broadcast_metadata b) in
    vault = vaultPubkey_of params
    /\ trace s'
       = trace s
         ++ [EvFetchVault vault; EvGetLatestBlockhash; EvSendAndConfirm t []]
    /\ rpc_fetchNullable p (world s) vault = Return None
    /\ rpc_sendAndConfirm p (world s) t [] = (Return (id b), world s')
    /\ explorer b = makeExplorerUrl (id b) net
    /\ instructions t = [initVaultIx; initVaultPeriodIx]
    /\ feePayer t = Some (wallet_publicKey p)
    /\ ix_accounts initVaultIx !! "vault" = Some (AddrKey vault)
    /\ ix_accounts initVaultPeriodIx !! "vault" = Some (AddrKey vault).
Proof.
  rewrite initVault_run.
  destruct (getInitVaultTx self params s) as [[r|e] s0] eqn:Ebuild;
    [|discriminate].
  destruct (getInitVaultTx_built _ _ _ _ _ _ Ebuild)
    as (blockhash & ixA & ixB & E1 & _ & -> & Emeta & Etx & _ & HA & _ & _ & _ & HB).
  unfold broadcast_step. cbn.
  destruct (rpc_sendAndConfirm p (world s) (tx r) []) as [[txHash|e] w] eqn:Esend;
    [|discriminate].
  intros [= <- <-]. exists (tx r), ixA, ixB. cbn. rewrite Emeta. cbn.
  split; [reflexivity|]. split; [now rewrite <- !app_assoc|].
  split; [exact E1|]. split; [exact Esend|]. split; [reflexivity|].
  rewrite Etx. repeat split; assumption.
Qed.

(** X11. [initVault] rejects for one of five reasons only: the vault
    account exists, the fetch rejected, [toPubkey] or anchor refused the
    parameters while the instructions were built, the block-hash request
    rejected, or the broadcast of the built transaction rejected; in all
    but the first case the error is the collaborator's own. *)
Theorem initVault_rejections params s e s' :
  initVault self params s = (Throw e, s') ->
  (e = VaultAlreadyExistsError (vaultPubkey_of params)
   /\ exists account,
        rpc_fetchNullable p (world s) (vaultPubkey_of params)
        = Return (Some account))
  \/ rpc_fetchNullable p (world s) (vaultPubkey_of params) = Throw e
  \/ (rpc_fetchNullable p (world s) (vaultPubkey_of params) = Return None
      /\ (toPubkey_error (InitVaultParams.tokenAMint params) = Some e
          \/ toPubkey_error (InitVaultParams.tokenBMint params) = Some e
          \/ (exists a,
                In a (InitVaultParams.whitelistedSwaps params)
                /\ toPubkey_error a = Some e)
          \/ anchor_rejects (initVault_builder self params) = Some e
          \/ anchor_rejects (initVaultPeriod_builder self params) = Some e))
  \/ (rpc_fetchNullable p (world s) (vaultPubkey_of params) = Return None
      /\ rpc_getLatestBlockhash p (world s) = Throw e)
  \/ (exists r s1,
        getInitVaultTx self params s = (Return r, s1)
        /\ fst (rpc_sendAndConfirm p (world s) (tx r) []) = Throw e).
Proof.
  rewrite initVault_run.
  destruct (getInitVaultTx self params s) as [[r|e1] s1] eqn:Erun.
  - destruct (getInitVaultTx_returned _ _ _ _ _ _ Erun)
      as (blockhash & _ & _ & _ & -> & _).
    unfold broadcast_step. cbn.
    destruct (rpc_sendAndConfirm p (world s) (tx r) []) as [[txHash|e3] w] eqn:E3;
      [discriminate|].
    intros [= <- _]. do 4 right. do 2 eexists. split; [reflexivity|].
    now rewrite E3.
  - intros [= <- _].
    destruct (getInitVaultTx_rejected _ _ _ _ _ _ Erun)
      as [(_ & [Hexists | [Hfetch | (E1 & E2)]]) | (_ & E1 & _ & E3)].
    + left. exact Hexists.
    + right. left. exact Hfetch.
    + right. right. left. split; [exact E1|].
      now apply initVault_build_error_Some.
    + right. right. right. left. split; [exact E1|exact E3].
Qed.

End Further.

(** * The properties on the test cluster

    Each statement with a premise about the world's answers is run once on
    the test double, where the premise holds by evaluation. *)

Section OnTheTestCluster.
Import TestCluster.

Lemma getInitVaultTx_fetch_before_create_witness :
  getInitVaultTx admin vaultParams taken_cluster
  = (Throw (VaultAlreadyExistsError (mkPublicKey vaultAddress)),
     logged (EvFetchVault (mkPublicKey vaultAddress)) taken_cluster).
Proof.
  refine (proj1 (proj2 (getInitVaultTx_fetch_before_create
                          provider Devnet vaultParams taken_cluster))
            (mkVaultAccount []) _).
  reflexivity.
Defined.


Lemma initVault_checks_before_sending_witness :
  fst (initVault admin vaultParams taken_cluster)
  = Throw (VaultAlreadyExistsError (mkPublicKey vaultAddress))
  /\ broadcasts (trace (snd (initVault admin vaultParams taken_cluster))) = []
  /\ rpc_fetchNullable provider (world fresh_cluster) (mkPublicKey vaultAddress)
     = Return None.
Proof.
  destruct (proj1 (initVault_checks_before_sending
                     provider Devnet vaultParams taken_cluster)
              (mkVaultAccount []))
    as [Erun Esent]; [reflexivity|].
  split; [|split].
  - change admin with (new_DripAdminImpl provider Devnet). now rewrite Erun.
  - exact Esent.
  - refine (proj2 (initVault_checks_before_sending
                     provider Devnet vaultParams fresh_cluster)
              (trace (snd (initVault admin vaultParams fresh_cluster)))
              _ _).
    + run.
    + vm_compute. discriminate.
Defined.

Lemma broadcast_is_build_then_send_witness :
  fst (initVaultProtoConfig admin (Preview previewed) fresh_cluster)
  = Return
      (mkBroadcast "5VERv8NMvzbJMEkV8xnrLkEaWRtSz9CosKDYjCJjBRnb"
         "https://explorer.solana.com/tx/5VERv8NMvzbJMEkV8xnrLkEaWRtSz9CosKDYjCJjBRnb?cluster=devnet"
         (mkKeypairMetadata (mkKeypair (mkPublicKey 77) [])))
  /\ fst (initVault admin vaultParams fresh_cluster)
     = Return
         (mkBroadcast "5VERv8NMvzbJMEkV8xnrLkEaWRtSz9CosKDYjCJjBRnb"
            "https://explorer.solana.com/tx/5VERv8NMvzbJMEkV8xnrLkEaWRtSz9CosKDYjCJjBRnb?cluster=devnet"
            (mkVaultMetadata (mkPublicKey vaultAddress))).
Proof.
  split.
  - refine (eq_trans (f_equal fst
              (proj1 (broadcast_is_build_then_send provider Devnet)
                 (Preview previewed) fresh_cluster _ _ _ _ _ _)) _); run.
  - refine (eq_trans (f_equal fst
              (proj2 (broadcast_is_build_then_send provider Devnet)
                 vaultParams fresh_cluster _ _ _ _ _ _)) _); run.
Defined.

Lemma getInitVaultProtoConfigTx_arguments_witness :
  (exists r s' ix,
     getInitVaultProtoConfigTx admin (PlainParams protoParams) fresh_cluster
     = (Return r, s')
     /\ instructions (tx r) = [ix]
     /\ ix_call ix
        = initVaultProtoConfig_call
            (InitVaultProtoConfigArgs.mk 60%Z 50%float 25%float wallet))
  /\ (exists r s' ix,
        getInitVaultProtoConfigTx admin (Preview hourly) fresh_cluster
        = (Return r, s')
        /\ instructions (tx r) = [ix]
        /\ ix_call ix
           = initVaultProtoConfig_call
               (InitVaultProtoConfigArgs.mk 3600%Z 30%float 10%float
                  (mkPublicKey 44))).
Proof.
  split.
  - eassert (getInitVaultProtoConfigTx admin (PlainParams protoParams)
               fresh_cluster
             = (Return _, _)) as Erun by run.
    destruct (proj1 (getInitVaultProtoConfigTx_arguments
                       provider Devnet fresh_cluster _ _) protoParams Erun)
      as (ix & granularity & Eixs & Ebn & _ & Hcall).
    do 2 eexists. exists ix. split; [exact Erun|]. split; [exact Eixs|].
    rewrite Hcall. vm_compute in Ebn. injection Ebn as <-. reflexivity.
  - eassert (getInitVaultProtoConfigTx admin (Preview hourly) fresh_cluster
             = (Return _, _)) as Erun by run.
    destruct (proj2 (getInitVaultProtoConfigTx_arguments
                       provider Devnet fresh_cluster _ _) hourly Erun)
      as (ix & granularity & Eixs & Ebn & _ & Hcall).
    do 2 eexists. exists ix. split; [exact Erun|]. split; [exact Eixs|].
    rewrite Hcall. vm_compute in Ebn. injection Ebn as <-. reflexivity.
Defined.

Lemma runtime_errors_propagate_witness :
  fst (initVault admin vaultParams offline_cluster)
  = Throw (RuntimeError "failed to get info about account")
  /\ fst (initVault admin vaultParams hashless_cluster)
     = Throw (RuntimeError "failed to get recent blockhash")
  /\ fst (initVault admin vaultParams refusing_cluster)
     = Throw (RuntimeError "Transaction simulation failed")
  /\ fst (initVaultProtoConfig admin (PlainParams protoParams) refusing_cluster)
     = Throw (RuntimeError "Transaction simulation failed").
Proof.
  split; [|split; [|split]].
  - refine (eq_trans (f_equal fst
              (proj2 (proj1 (runtime_errors_propagate provider Devnet
                               (RuntimeError "failed to get info about account"))
                        vaultParams offline_cluster _))) _); run.
  - refine (eq_trans (f_equal fst
              (proj2 (proj1 (proj2 (runtime_errors_propagate provider Devnet
                               (RuntimeError "failed to get recent blockhash")))
                        vaultParams hashless_cluster _ _ _ _ _ _ _))) _);
      [run | run | run | repeat constructor | run | run | run | run].
  - refine (eq_trans (f_equal fst
              (proj1 (proj2 (proj2 (runtime_errors_propagate provider Devnet
                               (RuntimeError "Transaction simulation failed"))))
                 vaultParams refusing_cluster _ _ _ _ _)) _); run.
  - refine (eq_trans (f_equal fst
              (proj2 (proj2 (proj2 (runtime_errors_propagate provider Devnet
                               (RuntimeError "Transaction simulation failed"))))
                 (PlainParams protoParams) refusing_cluster _ _ _ _ _)) _); run.
Defined.

Lemma getInitVaultTx_instructions_witness :
  exists r s',
    getInitVaultTx admin vaultParams fresh_cluster = (Return r, s')
    /\ map ix_call (instructions (tx r))
       = [initVault_call
            (InitVaultArgs.mk 100%float [mkPublicKey 5; mkPublicKey 43]);
          initVaultPeriod_call (InitVaultPeriodArgs.mk 0%Z)]
    /\ feePayer (tx r) = Some wallet
    /\ recentBlockhash (tx r)
       = Some "EkSnNWid2cvwEVnVx9aBqawnmiCNiDgp3gUdkDPTKN1N".
Proof.
  eassert (getInitVaultTx admin vaultParams fresh_cluster = (Return _, _))
    as Erun by run.
  destruct (getInitVaultTx_instructions provider Devnet vaultParams fresh_cluster
              _ _ Erun)
    as (blockhash & ixA & ixB & _ & Ehash & Eixs & HA & _ & HB & _ & _
        & Hpayer & Hrecent).
  do 2 eexists. split; [exact Erun|]. split; [|split; [exact Hpayer|]].
  - rewrite Eixs. cbn [map]. now rewrite HA, HB.
  - rewrite Hrecent. injection Ehash as <-. reflexivity.
Defined.

Lemma derived_addresses_are_deterministic_witness :
  exists r1 s1' r2 s2',
    getInitVaultTx admin vaultParams fresh_cluster = (Return r1, s1')
    /\ getInitVaultTx (new_DripAdminImpl other_provider Devnet) vaultParams
         taken_cluster = (Return r2, s2')
    /\ meta_vaultPubkey (metadata r1) = meta_vaultPubkey (metadata r2)
    /\ vaultPeriod_accounts (tx r1) = vaultPeriod_accounts (tx r2).
Proof.
  do 4 eexists. split; [run|]. split; [run|].
  refine (let H := derived_addresses_are_deterministic Devnet
                      provider other_provider vaultParams
                      fresh_cluster taken_cluster _ _ _ _ _ _ in
          conj (proj1 (proj2 (proj2 H))) (proj1 (proj2 (proj2 (proj2 H)))));
    run.
Defined.

Lemma mainnet_config_is_placeholder_witness :
  programId (vaultProgram (new_DripAdminImpl provider Mainnet)) = mkPublicKey 0
  /\ Configs (devnet (World := Cluster)) Mainnet = mkConfig PublicKey_default ∅ ∅ ∅.
Proof.
  pose proof (mainnet_config_is_placeholder (World := Cluster))
    as (_ & _ & _ & _ & _ & Hprogram & _ & Hother).
  split.
  - exact (Hprogram provider).
  - apply Hother. discriminate.
Defined.

End OnTheTestCluster.

(** * The further properties on the test clusters *)

Section FurtherOnTheTestClusters.
Import TestCluster.

Lemma getInitVaultProtoConfigTx_generates_once_witness :
  exists r s',
    getInitVaultProtoConfigTx admin (PlainParams protoParams) fresh_cluster
    = (Return r, s')
    /\ meta_vaultProtoConfigKeypair (metadata r) = mkKeypair (mkPublicKey 500) []
    /\ trace (snd (getInitVaultProtoConfigTx admin (PlainParams fractionalParams)
                     fresh_cluster))
       = [EvGenerateKeypair (mkKeypair (mkPublicKey 500) [])].
Proof.
  eassert (getInitVaultProtoConfigTx admin (PlainParams protoParams) fresh_cluster
           = (Return _, _)) as Erun by run.
  destruct (getInitVaultProtoConfigTx_generates_once provider Devnet protoParams
              fresh_cluster)
    as (keypair & w & Egen & _ & Hbuilt).
  destruct (Hbuilt _ _ Erun) as (ix & Hmeta & _).
  injection Egen as <- _.
  do 2 eexists. split; [exact Erun|]. split; [exact Hmeta|].
  destruct (getInitVaultProtoConfigTx_generates_once provider Devnet
              fractionalParams fresh_cluster)
    as (keypair & w' & Egen & Estate & _).
  change admin with (new_DripAdminImpl provider Devnet).
  rewrite Estate. injection Egen as <- _. reflexivity.
Defined.

Lemma initVaultProtoConfig_broadcast_witness :
  fst (initVaultProtoConfig admin (PlainParams fractionalParams) fresh_cluster)
  = Throw (RuntimeError "Invalid character")
  /\ broadcasts
       (trace (snd (getInitVaultProtoConfigTx admin (PlainParams fractionalParams)
                      fresh_cluster)))
     = [].
Proof.
  eassert (getInitVaultProtoConfigTx admin (PlainParams fractionalParams)
             fresh_cluster
           = (Throw (RuntimeError "Invalid character"), _)) as Erun by run.
  destruct (proj2 (initVaultProtoConfig_broadcast provider Devnet
                     (PlainParams fractionalParams) fresh_cluster) _ _ Erun)
    as [Ecall Equiet].
  split.
  - exact (f_equal fst Ecall).
  - rewrite Erun. exact Equiet.
Defined.

Lemma getInitVaultTx_outcomes_witness :
  (exists r s', getInitVaultTx admin vaultParams fresh_cluster = (Return r, s'))
  /\ toPubkey_error (InitVaultParams.tokenAMint malformedMintParams)
     = Some (RuntimeError "Invalid public key input")
  /\ snd (getInitVaultTx admin malformedMintParams fresh_cluster)
     = logged (EvFetchVault (mkPublicKey 1050)) fresh_cluster.
Proof.
  split.
  - refine (proj2 (proj1 (getInitVaultTx_outcomes provider Devnet vaultParams
                            fresh_cluster))
              (conj _ (conj _ (conj _ (conj _ (conj _ (conj _
                 (ex_intro _ _ _))))))));
      [run | run | run | repeat constructor | run | run | run].
  - eassert (getInitVaultTx admin malformedMintParams fresh_cluster
             = (Throw (RuntimeError "Invalid public key input"), _))
      as Erun by run.
    destruct (proj2 (getInitVaultTx_outcomes provider Devnet malformedMintParams
                       fresh_cluster) _ _ Erun)
      as [(Hexists & _) | [Hfetch | [(_ & Estate & _) | (_ & Hhash)]]].
    + discriminate Hexists.
    + discriminate Hfetch.
    + split; [reflexivity|].
      rewrite Erun. exact Estate.
    + discriminate Hhash.
Defined.

Lemma getInitVaultTx_accounts_agree_witness :
  exists r s' initVaultIx initVaultPeriodIx,
    getInitVaultTx admin vaultParams fresh_cluster = (Return r, s')
    /\ instructions (tx r) = [initVaultIx; initVaultPeriodIx]
    /\ ix_accounts initVaultIx !! "vault"
       = ix_accounts initVaultPeriodIx !! "vault"
    /\ ix_accounts initVaultIx !! "tokenAAccount"
       = Some (AddrKey (mkPublicKey 4050)).
Proof.
  eassert (getInitVaultTx admin vaultParams fresh_cluster = (Return _, _))
    as Erun by run.
  destruct (getInitVaultTx_accounts_agree provider Devnet vaultParams
              fresh_cluster _ _ Erun)
    as (ixA & ixB & Eixs & _ & _ & Hagree & _ & _ & _ & _ & _ & _ & HA & _).
  do 2 eexists. exists ixA, ixB. split; [exact Erun|]. split; [exact Eixs|].
  split; [exact (proj1 (Forall_inv Hagree))|]. exact HA.
Defined.

Lemma getInitVaultTx_account_names_witness :
  exists r s',
    getInitVaultTx admin vaultParams fresh_cluster = (Return r, s')
    /\ map (fun ix => size (ix_accounts ix)) (instructions (tx r)) = [12; 7]%nat.
Proof.
  eassert (getInitVaultTx admin vaultParams fresh_cluster = (Return _, _))
    as Erun by run.
  destruct (getInitVaultTx_account_names provider Devnet vaultParams
              fresh_cluster _ _ Erun)
    as (ixA & ixB & Eixs & _ & HA & _ & HB & _).
  do 2 eexists. split; [exact Erun|]. rewrite Eixs. cbn [map]. now rewrite HA, HB.
Defined.

Lemma initVault_twice_witness :
  fst (bind (initVault LandingCluster.admin vaultParams)
         (fun _ => initVault LandingCluster.admin vaultParams) fresh_cluster)
  = Throw (VaultAlreadyExistsError (mkPublicKey vaultAddress))
  /\ length
       (broadcasts
          (trace
             (snd (bind (initVault LandingCluster.admin vaultParams)
                     (fun _ => initVault LandingCluster.admin vaultParams)
                     fresh_cluster))))
     = 1%nat.
Proof.
  eassert (initVault LandingCluster.admin vaultParams fresh_cluster
           = (Return _, _)) as Efirst by run.
  edestruct (initVault_twice LandingCluster.provider Devnet vaultParams
               fresh_cluster _ _ (mkVaultAccount []) Efirst)
    as [Erun Ecount]; [vm_compute; reflexivity|].
  split.
  - exact (f_equal fst Erun).
  - exact Ecount.
Defined.

Lemma initVault_success_witness :
  exists b s',
    initVault admin vaultParams fresh_cluster = (Return b, s')
    /\ meta_vaultPubkey (broadcast_metadata b) = mkPublicKey vaultAddress
    /\ length (trace s') = 3%nat.
Proof.
  eassert (initVault admin vaultParams fresh_cluster = (Return _, _))
    as Erun by run.
  destruct (initVault_success provider Devnet vaultParams fresh_cluster _ _ Erun)
    as (t & ixA & ixB & Evault & Etrace & _).
  do 2 eexists. split; [exact Erun|]. split; [exact Evault|]. now rewrite Etrace.
Defined.

Lemma initVault_rejections_witness :
  anchor_rejects (initVault_builder admin malformedTreasuryParams)
  = Some (RuntimeError "Wrong input type for account")
  /\ anchor_rejects (initVault_builder admin wideSlippageParams)
     = Some (RuntimeError "The value is out of range").
Proof.
  eassert (initVault admin malformedTreasuryParams fresh_cluster
           = (Throw (RuntimeError "Wrong input type for account"), _))
    as Etreasury by run.
  eassert (initVault admin wideSlippageParams fresh_cluster
           = (Throw (RuntimeError "The value is out of range"), _))
    as Eslippage by run.
  split.
  - destruct (initVault_rejections provider Devnet malformedTreasuryParams
                fresh_cluster _ _ Etreasury)
      as [(Hexists & _)
         | [Hfetch
           | [(_ & [HA | [HB | [(a & [] & _) | [HixA | HixB]]]])
             | [(_ & Hhash) | (r & s1 & Hbuild & _)]]]].
    + discriminate Hexists.
    + discriminate Hfetch.
    + discriminate HA.
    + discriminate HB.
    + exact HixA.
    + exfalso. revert HixB. vm_compute. discriminate.
    + discriminate Hhash.
    + exfalso. revert Hbuild. vm_compute. discriminate.
  - destruct (initVault_rejections provider Devnet wideSlippageParams
                fresh_cluster _ _ Eslippage)
      as [(Hexists & _)
         | [Hfetch
           | [(_ & [HA | [HB | [(a & [] & _) | [HixA | HixB]]]])
             | [(_ & Hhash) | (r & s1 & Hbuild & _)]]]].
    + discriminate Hexists.
    + discriminate Hfetch.
    + discriminate HA.
    + discriminate HB.
    + exact HixA.
    + exfalso. revert HixB. vm_compute. discriminate.
    + discriminate Hhash.
    + exfalso. revert Hbuild. vm_compute. discriminate.
Defined.

End FurtherOnTheTestClusters.
